(** * Karcher Home client: request signing, envelope decoding, map retrieval

    A shallow embedding of [karcher/karcher.py] (class [KarcherHome]) and of
    the Python library functions it calls on its data, followed by the
    properties of the signing scheme, of the envelope decoder and of the map
    retrieval pipeline. *)

From Stdlib Require Import ZArith List String Ascii Bool Lia DecimalString
  Permutation DecimalZ DecimalPos.
Import ListNotations.
Open Scope list_scope.
Open Scope string_scope.
Set Warnings "-register-all".

(* ===================================================================== *)
(** ** Python values *)
(* ===================================================================== *)

(** The values that travel through [KarcherHome]: JSON documents, keyword
    arguments and header maps.  A [str] is a sequence of code points; the
    model keeps the code points 0..255, one per [ascii].  A [dict] is the
    list of its items in insertion order (Python keeps that order, and the
    signer depends on it); its keys are strings, as in every JSON object.
    Floats, bytes and tuples are not modelled. *)
Module Py.

Inductive pyval : Type :=
| PNone
| PBool (b : bool)
| PInt (n : Z)
| PStr (s : string)
| PList (l : list pyval)
| PDict (items : list (string * pyval)).

Definition dict := list (string * pyval).

(** [v == None], [v == n] for an int literal, [v == s] for a str literal.
    Python compares a bool with an int by its value (True == 1). *)
Definition eq_None (v : pyval) : bool :=
  match v with PNone => true | _ => false end.

Definition eq_int (v : pyval) (n : Z) : bool :=
  match v with
  | PInt m => Z.eqb m n
  | PBool b => Z.eqb (if b then 1 else 0) n
  | _ => false
  end.

Definition eq_str (v : pyval) (s : string) : bool :=
  match v with PStr t => String.eqb t s | _ => false end.

(** Truth value, as tested by [x or y]. *)
Definition truthy (v : pyval) : bool :=
  match v with
  | PNone => false
  | PBool b => b
  | PInt n => negb (Z.eqb n 0)
  | PStr s => negb (String.eqb s "")
  | PList l => match l with [] => false | _ => true end
  | PDict d => match d with [] => false | _ => true end
  end.

(** *** Dictionaries in insertion order *)

Fixpoint dict_get {A : Type} (d : list (string * A)) (k : string) : option A :=
  match d with
  | [] => None
  | (k', v) :: d' => if String.eqb k' k then Some v else dict_get d' k
  end.

Definition dict_mem {A : Type} (d : list (string * A)) (k : string) : bool :=
  match dict_get d k with Some _ => true | None => false end.

(** [d[k] = v]: an existing key keeps its position, a new key goes last. *)
Fixpoint dict_set {A : Type} (d : list (string * A)) (k : string) (v : A)
  : list (string * A) :=
  match d with
  | [] => [(k, v)]
  | (k', v') :: d' =>
      if String.eqb k' k then (k', v) :: d' else (k', v') :: dict_set d' k v
  end.

Definition keys {A : Type} (d : list (string * A)) : list string := map fst d.

(** *** Characters *)

Definition dquote : ascii := ascii_of_nat 34.
Definition squote : ascii := ascii_of_nat 39.
Definition backslash : ascii := ascii_of_nat 92.

Definition chr (c : ascii) : string := String c EmptyString.

Definition hex_lower (n : nat) : ascii :=
  ascii_of_nat (if Nat.ltb n 10 then 48 + n else 87 + n).

Definition hex_upper (n : nat) : ascii :=
  ascii_of_nat (if Nat.ltb n 10 then 48 + n else 55 + n).

Definition hex2_lower (n : nat) : string :=
  String (hex_lower (Nat.div n 16)) (chr (hex_lower (Nat.modulo n 16))).

Definition hex2_upper (n : nat) : string :=
  String (hex_upper (Nat.div n 16)) (chr (hex_upper (Nat.modulo n 16))).

Fixpoint string_map (f : ascii -> string) (s : string) : string :=
  match s with
  | EmptyString => EmptyString
  | String c s' => f c ++ string_map f s'
  end.

Fixpoint string_mem (c : ascii) (s : string) : bool :=
  match s with
  | EmptyString => false
  | String c' s' => Ascii.eqb c' c || string_mem c s'
  end.

(** *** [str] and [repr] *)

(** [str(n)] of an int: decimal digits, a leading minus sign when negative. *)
Definition int_str (n : Z) : string := NilZero.string_of_int (Z.to_int n).

(** [repr] of one character of a str quoted with [q]. *)
Definition repr_char (q c : ascii) : string :=
  let n := nat_of_ascii c in
  if Ascii.eqb c q || Ascii.eqb c backslash then String backslash (chr c)
  else if Nat.eqb n 9 then String backslash "t"
  else if Nat.eqb n 10 then String backslash "n"
  else if Nat.eqb n 13 then String backslash "r"
  else if Nat.ltb n 32 || Nat.eqb n 127
       then String backslash ("x" ++ hex2_lower n)
  else if Nat.ltb n 127 then chr c
  else if Nat.leb n 160 || Nat.eqb n 173
       then String backslash ("x" ++ hex2_lower n)
  else chr c.

(** [repr(s)]: single quotes, unless [s] has a single quote and no double
    quote. *)
Definition repr_str (s : string) : string :=
  let q := if string_mem squote s && negb (string_mem dquote s)
           then dquote else squote in
  String q (string_map (repr_char q) s) ++ chr q.

Fixpoint repr (v : pyval) : string :=
  match v with
  | PNone => "None"
  | PBool b => if b then "True" else "False"
  | PInt n => int_str n
  | PStr s => repr_str s
  | PList l => "[" ++ String.concat ", " (map repr l) ++ "]"
  | PDict d =>
      "{" ++ String.concat ", "
               (map (fun kv => repr_str (fst kv) ++ ": " ++ repr (snd kv)) d)
          ++ "}"
  end.

(** [str(v)]. *)
Definition str (v : pyval) : string :=
  match v with PStr s => s | _ => repr v end.

(** *** [json.dumps(v, separators=(',', ':'))] *)

(** One character of a JSON string, [ensure_ascii] left at its default. *)
Definition json_char (c : ascii) : string :=
  let n := nat_of_ascii c in
  if Nat.eqb n 34 then String backslash (chr dquote)
  else if Nat.eqb n 92 then String backslash (chr backslash)
  else if Nat.eqb n 10 then String backslash "n"
  else if Nat.eqb n 13 then String backslash "r"
  else if Nat.eqb n 9 then String backslash "t"
  else if Nat.eqb n 8 then String backslash "b"
  else if Nat.eqb n 12 then String backslash "f"
  else if Nat.ltb n 32 || Nat.ltb 126 n
       then String backslash ("u00" ++ hex2_lower n)
  else chr c.

Definition json_str (s : string) : string :=
  String dquote (string_map json_char s) ++ chr dquote.

Fixpoint json_dumps (v : pyval) : string :=
  match v with
  | PNone => "null"
  | PBool b => if b then "true" else "false"
  | PInt n => int_str n
  | PStr s => json_str s
  | PList l => "[" ++ String.concat "," (map json_dumps l) ++ "]"
  | PDict d =>
      "{" ++ String.concat ","
               (map (fun kv => json_str (fst kv) ++ ":" ++ json_dumps (snd kv))
                  d)
          ++ "}"
  end.

(** *** [urllib.parse] *)

(** UTF-8 bytes of a str (code points below 256 take one or two bytes). *)
Definition utf8_char (c : ascii) : list nat :=
  let n := nat_of_ascii c in
  if Nat.ltb n 128 then [n] else [192 + Nat.div n 64; 128 + Nat.modulo n 64].

Fixpoint utf8 (s : string) : list nat :=
  match s with
  | EmptyString => []
  | String c s' => utf8_char c ++ utf8 s'
  end.

(** The bytes [quote] never escapes: letters, digits and [_.-~]. *)
Definition always_safe (n : nat) : bool :=
  (Nat.leb 65 n && Nat.leb n 90) || (Nat.leb 97 n && Nat.leb n 122)
  || (Nat.leb 48 n && Nat.leb n 57)
  || Nat.eqb n 95 || Nat.eqb n 46 || Nat.eqb n 45 || Nat.eqb n 126.

Definition quote_plus_byte (n : nat) : string :=
  if Nat.eqb n 32 then "+"
  else if always_safe n then chr (ascii_of_nat n)
  else String "%" (hex2_upper n).

(** [urllib.parse.quote_plus(s)]. *)
Definition quote_plus (s : string) : string :=
  String.concat "" (map quote_plus_byte (utf8 s)).

(** [urllib.parse.urlencode(d)] for a dict [d]. *)
Definition urlencode (d : dict) : string :=
  String.concat "&"
    (map (fun kv => quote_plus (fst kv) ++ "=" ++ quote_plus (str (snd kv))) d).

End Py.

Import Py.


(* ===================================================================== *)
(** ** The digest *)
(* ===================================================================== *)

(** Modelled from the spec: [karcher/utils.py], which defines [md5], is not
    part of the sources at hand.  The spec fixes the digest as a one-way
    128-bit hash, MD5, applied to the concatenated byte string, its output
    in lower-case hex.  The str is turned into bytes by UTF-8, the default
    of [str.encode]. *)
Module MD5.

Local Open Scope Z_scope.

Definition mask32 : Z := 4294967295.
Definition wrap32 (x : Z) : Z := x mod 4294967296.

Definition rotl32 (x n : Z) : Z :=
  Z.lor (wrap32 (Z.shiftl x n)) (Z.shiftr x (32 - n)).

(** Per-round shift amounts. *)
Definition shifts : list Z :=
  [7; 12; 17; 22; 7; 12; 17; 22; 7; 12; 17; 22; 7; 12; 17; 22;
   5; 9; 14; 20; 5; 9; 14; 20; 5; 9; 14; 20; 5; 9; 14; 20;
   4; 11; 16; 23; 4; 11; 16; 23; 4; 11; 16; 23; 4; 11; 16; 23;
   6; 10; 15; 21; 6; 10; 15; 21; 6; 10; 15; 21; 6; 10; 15; 21].

(** The sine table: [floor (2^32 * abs (sin (i + 1)))]. *)
Definition sines : list Z :=
  [3614090360; 3905402710; 606105819; 3250441966;
   4118548399; 1200080426; 2821735955; 4249261313;
   1770035416; 2336552879; 4294925233; 2304563134;
   1804603682; 4254626195; 2792965006; 1236535329;
   4129170786; 3225465664; 643717713; 3921069994;
   3593408605; 38016083; 3634488961; 3889429448;
   568446438; 3275163606; 4107603335; 1163531501;
   2850285829; 4243563512; 1735328473; 2368359562;
   4294588738; 2272392833; 1839030562; 4259657740;
   2763975236; 1272893353; 4139469664; 3200236656;
   681279174; 3936430074; 3572445317; 76029189;
   3654602809; 3873151461; 530742520; 3299628645;
   4096336452; 1126891415; 2878612391; 4237533241;
   1700485571; 2399980690; 4293915773; 2240044497;
   1873313359; 4264355552; 2734768916; 1309151649;
   4149444226; 3174756917; 718787259; 3951481745].

Definition state : Type := (Z * Z * Z * Z)%type.

Definition init : state := (1732584193, 4023233417, 2562383102, 271733878).

(** Little-endian bytes of a value, [n] of them. *)
Fixpoint le_bytes (n : nat) (x : Z) : list Z :=
  match n with
  | O => []
  | S n' => (x mod 256) :: le_bytes n' (x / 256)
  end.

Fixpoint le_value (bs : list Z) : Z :=
  match bs with
  | [] => 0
  | b :: bs' => b + 256 * le_value bs'
  end.

(** The message, one 1 bit, zero bits up to 56 modulo 64 bytes, then the
    bit length on eight bytes. *)
Definition pad (msg : list Z) : list Z :=
  let len := Z.of_nat (List.length msg) in
  let zeros := Z.to_nat ((55 - len) mod 64) in
  (msg ++ 128 :: repeat 0 zeros ++ le_bytes 8 ((8 * len) mod 2 ^ 64))%list.

(** The sixteen words of a 64-byte block. *)
Fixpoint words (n : nat) (bs : list Z) : list Z :=
  match n with
  | O => []
  | S n' => le_value (firstn 4 bs) :: words n' (skipn 4 bs)
  end.

Definition round (m : list Z) (st : state) (i : nat) : state :=
  let '(a, b, c, d) := st in
  let iz := Z.of_nat i in
  let '(f, g) :=
    if iz <? 16 then
      (Z.lor (Z.land b c) (Z.land (Z.lxor b mask32) d), iz)
    else if iz <? 32 then
      (Z.lor (Z.land d b) (Z.land (Z.lxor d mask32) c), (5 * iz + 1) mod 16)
    else if iz <? 48 then
      (Z.lxor b (Z.lxor c d), (3 * iz + 5) mod 16)
    else
      (Z.lxor c (Z.lor b (Z.lxor d mask32)), (7 * iz) mod 16) in
  let f' := wrap32 (f + a + nth i sines 0 + nth (Z.to_nat g) m 0) in
  (d, wrap32 (b + rotl32 f' (nth i shifts 0)), b, c).

Definition block (st : state) (bs : list Z) : state :=
  let '(a0, b0, c0, d0) := st in
  let '(a, b, c, d) := fold_left (round (words 16 bs)) (seq 0 64) st in
  (wrap32 (a0 + a), wrap32 (b0 + b), wrap32 (c0 + c), wrap32 (d0 + d)).

Fixpoint blocks (n : nat) (st : state) (bs : list Z) : state :=
  match n with
  | O => st
  | S n' => blocks n' (block st (firstn 64 bs)) (skipn 64 bs)
  end.

Definition digest (msg : list Z) : list Z :=
  let p := pad msg in
  let '(a, b, c, d) := blocks (Nat.div (List.length p) 64) init p in
  (le_bytes 4 a ++ le_bytes 4 b ++ le_bytes 4 c ++ le_bytes 4 d)%list.

Definition hexdigest (msg : list Z) : string :=
  String.concat "" (map (fun b => hex2_lower (Z.to_nat b)) (digest msg)).

(** [md5(s)]: the hex digest of the UTF-8 bytes of [s]. *)
Definition md5 (s : string) : string := hexdigest (map Z.of_nat (utf8 s)).

End MD5.

(* ===================================================================== *)
(** ** The client *)
(* ===================================================================== *)

Module Karcher.

(** *** Exceptions *)

(** [KarcherHomeException(code, message)] and [KarcherHomeAccessDenied]
    come from [karcher/exception.py]; the others are the built-in errors
    the code can run into, and [Foreign] is an error raised inside a
    collaborator (transport, JSON parser, cipher, map decoder). *)
Inductive exn : Type :=
| KarcherHomeException (code : Z) (message : string)
| KarcherHomeAccessDenied (message : string)
| KeyError (key : string)
| TypeError
| AttributeError
| Foreign (what : string).

Definition result (A : Type) : Type := (exn + A)%type.

Definition and_then {A B : Type} (r : result A) (k : A -> result B)
  : result B :=
  match r with
  | inr a => k a
  | inl e => inl e
  end.

Notation "x <~ r ;; k" := (and_then r (fun x => k))
  (at level 61, r at next level, right associativity).

(** [v[k]] for a str key. *)
Definition getitem (v : pyval) (k : string) : result pyval :=
  match v with
  | PDict d =>
      match dict_get d k with
      | Some x => inr x
      | None => inl (KeyError k)
      end
  | _ => inl TypeError
  end.

Fixpoint prefix_of (p s : string) : bool :=
  match p, s with
  | EmptyString, _ => true
  | String a p', String b s' => Ascii.eqb a b && prefix_of p' s'
  | String _ _, EmptyString => false
  end.

Fixpoint substring_of (p s : string) : bool :=
  prefix_of p s
  || match s with
     | EmptyString => false
     | String _ s' => substring_of p s'
     end.

(** [k in v] for a str key. *)
Definition contains (v : pyval) (k : string) : result bool :=
  match v with
  | PDict d => inr (dict_mem d k)
  | PList l => inr (existsb (fun x => eq_str x k) l)
  | PStr s => inr (substring_of k s)
  | _ => inl TypeError
  end.

(** [a + v] for a str [a]. *)
Definition str_add (a : string) (v : pyval) : result string :=
  match v with
  | PStr b => inr (a ++ b)
  | _ => inl TypeError
  end.

(** *** Data *)

(** Modelled from the spec: [karcher/auth.py] is not part of the sources.
    A session holds an opaque auth token, a user identifier, a
    country/region code and a client-generated registration id; [reset]
    empties it. *)
Record Session : Type := {
  auth_token : string;
  user_id : string;
  country_code : string;
  register_id : string
}.

Definition empty_session : Session :=
  {| auth_token := ""; user_id := ""; country_code := ""; register_id := "" |}.

Definition reset (sess : Session) : Session := empty_session.

Definition set_register_id (sess : Session) (r : string) : Session :=
  {| auth_token := auth_token sess; user_id := user_id sess;
     country_code := country_code sess; register_id := r |}.

(** The attributes of [device.Device] that the client reads. *)
Record Device : Type := {
  sn : string;
  mac : string;
  product_id : string;
  product_mode_code : string
}.

(** The attributes of [auth.Domains] that the client reads. *)
Record Domains : Type := {
  app_api : string;
  mqtt : string
}.

(** The keyword arguments of [_request] that it looks at. *)
Record Kwargs : Type := {
  kw_headers : option (list (string * string));
  kw_params : option pyval;
  kw_json : option pyval
}.

Definition no_kwargs : Kwargs :=
  {| kw_headers := None; kw_params := None; kw_json := None |}.

(** What [session.request(method, url, **kwargs)] receives. *)
Record Request : Type := {
  req_method : string;
  req_url : string;
  req_headers : list (string * string);
  req_params : option pyval;
  req_json : option pyval
}.

(** What the transport gives back: [resp.status_code], [resp.json()]
    (which raises on a body that is not JSON) and [resp.content]. *)
Record Response : Type := {
  status_code : Z;
  json : result pyval;
  content : string
}.

(** A call into the transport library: [session.request] of [_request], or
    [session.get] of [_download]. *)
Inductive NetCall : Type :=
| Signed (r : Request)
| Download (url : string) (headers : list (string * string)).

(** *** State and errors *)

(** The calls made to the transport so far, oldest first, and the number of
    readings of clock and random source. *)
Record World : Type := {
  calls : list NetCall;
  ticks : nat
}.

Definition M (A : Type) : Type := World -> result A * World.

Definition ret {A : Type} (a : A) : M A := fun w => (inr a, w).

Definition raise {A : Type} (e : exn) : M A := fun w => (inl e, w).

Definition lift {A : Type} (r : result A) : M A := fun w => (r, w).

Definition bind {A B : Type} (m : M A) (k : A -> M B) : M B :=
  fun w =>
    match m w with
    | (inr a, w') => k a w'
    | (inl e, w') => (inl e, w')
    end.

Notation "x <- m ;; k" := (bind m (fun x => k))
  (at level 61, m at next level, right associativity).

Fixpoint map_result {A B : Type} (f : A -> result B) (l : list A)
  : result (list B) :=
  match l with
  | [] => inr []
  | a :: l' => b <~ f a ;; bs <~ map_result f l' ;; inr (b :: bs)
  end.

(** *** Collaborators *)

(** The types of [map.py] and [consts.py] that the client only passes on:
    the decoded floor map, the regions and the languages. *)
Record Types : Type := {
  FloorMap : Type;
  Region : Type;
  Language : Type
}.

Section Client.

Context {T : Types}.

(** The constants of [consts.py], the helpers of [utils.py], [exception.py],
    [map.py], the constructors of [auth.py] and [device.py], the standard
    library parsers and the remote service: none of them is part of the
    sources, and the client is modelled over any choice of them.  Clock and
    random source are read at a tick; the service answers a call knowing
    the calls made before. *)
Record Ext : Type := {
  Language_EN : Language T;
  Language_str : Language T -> string;
  REGION_URLS : Region T -> string;
  TENANT_ID : string;
  PROJECT_TYPE : pyval;
  PROTOCOL_VERSION : pyval;
  APP_VERSION_CODE : pyval;
  APP_VERSION_NAME : pyval;
  md5 : string -> string;
  encrypt : string -> string;
  decrypt : pyval -> result string;
  decrypt_map : string -> string -> string -> string -> result string;
  is_email : string -> bool;
  get_nonce : nat -> string;
  get_timestamp : nat -> Z;
  get_random_string : nat -> Z -> string;
  handle_error_code : pyval -> pyval -> option exn;
  json_loads : string -> result pyval;
  parse_qs : string -> dict;
  Map_parse : string -> result (FloorMap T);
  new_Session : dict -> result Session;
  new_Device : dict -> result Device;
  new_Domains : dict -> result Domains;
  get_country_code : Session -> pyval;
  session_request : list NetCall -> Request -> result Response;
  session_get :
    list NetCall -> string -> list (string * string) -> result Response
}.

Variable E : Ext.

Definition tick : M nat :=
  fun w => (inr (ticks w), {| calls := calls w; ticks := S (ticks w) |}).

Definition request (r : Request) : M Response :=
  fun w => (session_request E (calls w) r,
            {| calls := (calls w ++ [Signed r])%list; ticks := ticks w |}).

Definition get (url : string) (headers : list (string * string))
  : M Response :=
  fun w => (session_get E (calls w) url headers,
            {| calls := (calls w ++ [Download url headers])%list;
               ticks := ticks w |}).

(** The object: [self._base_url], [self._mqtt_url], [self._language]. *)
Record KarcherHome : Type := {
  _base_url : string;
  _mqtt_url : option string;
  _language : Language T
}.

(** A constructor called on the items of [d] as keyword arguments: [d]
    must be a mapping. *)
Definition kwargs_of {A : Type} (new : dict -> result A) (d : pyval)
  : result A :=
  match d with
  | PDict items => new items
  | _ => inl TypeError
  end.

(** [KarcherHome._request] *)
Definition _request (self : KarcherHome) (sess : option Session)
    (method url : string) (kwargs : Kwargs) : M Response :=
  let headers := match kw_headers kwargs with Some h => h | None => [] end in
  let headers := dict_set headers "User-Agent" ("Android_" ++ TENANT_ID E) in
  let auth := "" in
  let '(auth, headers) :=
    match sess with
    | Some s =>
        if negb (String.eqb (auth_token s) "")
        then (auth_token s, dict_set headers "authorization" (auth_token s))
        else (auth, headers)
    | None => (auth, headers)
    end in
  let headers :=
    match sess with
    | Some s =>
        if negb (String.eqb (user_id s) "")
        then dict_set headers "id" (user_id s)
        else headers
    | None => headers
    end in
  let headers := dict_set headers "tenantId" (TENANT_ID E) in
  (* Sign request *)
  t0 <- tick ;;
  let nonce := get_nonce E t0 in
  t1 <- tick ;;
  let ts := int_str (get_timestamp E t1) in
  let data := "" in
  signed <- lift (
    if String.eqb method "GET" then
      let params :=
        match kw_params kwargs with
        | Some p => if truthy p then p else PDict []
        | None => PDict []
        end in
      query <~ match params with
               | PStr s => inr (parse_qs E s)
               | PDict d => inr d
               | _ => inl TypeError
               end ;;
      let buf := urlencode query in
      inr (buf, {| kw_headers := kw_headers kwargs;
                   kw_params := Some (PStr buf);
                   kw_json := kw_json kwargs |})
    else if String.eqb method "POST" || String.eqb method "PUT" then
      let v :=
        match kw_json kwargs with
        | Some j => if truthy j then j else PDict []
        | None => PDict []
        end in
      match v with
      | PDict items =>
          inr (fold_left
                 (fun data kv =>
                    let '(key, val) := kv in
                    let data := data ++ key in
                    if eq_None val then data ++ "null"
                    else match val with
                         | PStr s => data ++ s
                         | PDict _ => data ++ json_dumps val
                         | _ => data ++ str val
                         end)
                 items data,
               {| kw_headers := kw_headers kwargs;
                  kw_params := kw_params kwargs;
                  kw_json := Some (PDict items) |})
      | _ => inr (data, kwargs)
      end
    else inr (data, kwargs)) ;;
  let '(data, kwargs) := signed in
  let headers :=
    dict_set headers "sign" (md5 E (auth ++ ts ++ nonce ++ data)) in
  let headers := dict_set headers "ts" ts in
  let headers := dict_set headers "nonce" nonce in
  request {| req_method := method;
             req_url := _base_url self ++ url;
             req_headers := headers;
             req_params := kw_params kwargs;
             req_json := kw_json kwargs |}.

(** [KarcherHome._download]; the transport takes [str(url)] of whatever it
    is given. *)
Definition _download (url : pyval) : M string :=
  let headers := [("User-Agent", "Android_" ++ TENANT_ID E)] in
  resp <- get (str url) headers ;;
  if negb (Z.eqb (status_code resp) 200)
  then raise (KarcherHomeException (-1)
                ("HTTP error: " ++ int_str (status_code resp)))
  else ret (content resp).

(** [KarcherHome._process_response]; [PNone] is Python's [None]. *)
Definition _process_response (resp : Response) (prop : option string)
  : result pyval :=
  if negb (Z.eqb (status_code resp) 200)
  then inl (KarcherHomeException (-1)
              ("HTTP error: " ++ int_str (status_code resp)))
  else
    data <~ json resp ;;
    (* Check for error response *)
    code <~ getitem data "code" ;;
    _ <~ (if negb (eq_int code 0)
          then code' <~ getitem data "code" ;;
               msg <~ getitem data "msg" ;;
               match handle_error_code E code' msg with
               | Some e => inl e
               | None => inr tt
               end
          else inr tt) ;;
    (* Check for empty response *)
    has_result <~ contains data "result" ;;
    if negb has_result then inr PNone
    else
      (* Handle special response types *)
      result <~ getitem data "result" ;;
      match result with
      | PStr s => inl (KarcherHomeException (-2) ("Invalid response: " ++ s))
      | _ =>
          match prop with
          | Some p =>
              field <~ getitem result p ;;
              plain <~ decrypt E field ;;
              json_loads E plain
          | None => inr result
          end
      end.

(** [KarcherHome.get_urls] *)
Definition get_urls (self : KarcherHome) : M Domains :=
  resp <- _request self None "GET" "/network-service/domains/list"
            {| kw_headers := None;
               kw_params := Some (PDict [("tenantId", PStr (TENANT_ID E));
                                         ("productModeCode", PROJECT_TYPE E);
                                         ("version", PROTOCOL_VERSION E)]);
               kw_json := None |} ;;
  d <- lift (_process_response resp (Some "domain")) ;;
  lift (kwargs_of (new_Domains E) d).

(** [KarcherHome.__init__] *)
Definition __init__ (region : Region T) : M KarcherHome :=
  let self := {| _base_url := REGION_URLS E region;
                 _mqtt_url := None;
                 _language := Language_EN E |} in
  d <- get_urls self ;;
  (* Update base URLs *)
  let self :=
    if negb (String.eqb (app_api d) "")
    then {| _base_url := app_api d; _mqtt_url := _mqtt_url self;
            _language := _language self |}
    else self in
  let self :=
    if negb (String.eqb (mqtt d) "")
    then {| _base_url := _base_url self; _mqtt_url := Some (mqtt d);
            _language := _language self |}
    else self in
  ret self.

(** [KarcherHome.login]; [register_id] is [None] or a str. *)
Definition login (self : KarcherHome) (username password : string)
    (register_id : option string) : M Session :=
  register_id <-
    match register_id with
    | Some r =>
        if String.eqb r ""
        then t <- tick ;; ret (get_random_string E t 19)
        else ret r
    | None => t <- tick ;; ret (get_random_string E t 19)
    end ;;
  let username :=
    if negb (is_email E username) then "86-" ++ username else username in
  resp <- _request self None "POST" "/user-center/auth/login"
            {| kw_headers := None;
               kw_params := None;
               kw_json := Some (PDict [
                 ("tenantId", PStr (TENANT_ID E));
                 ("lang", PStr (Language_str E (_language self)));
                 ("token", PNone);
                 ("userId", PNone);
                 ("password", PStr (encrypt E password));
                 ("username", PStr (encrypt E username));
                 ("authcode", PNone);
                 ("projectType", PROJECT_TYPE E);
                 ("versionCode", APP_VERSION_CODE E);
                 ("versionName", APP_VERSION_NAME E);
                 ("phoneBrand", PStr (encrypt E "xiaomi_mi 9"));
                 ("phoneSys", PInt 1);
                 ("noticeSetting",
                  PDict [("andIpad", PStr register_id);
                         ("android", PStr register_id)])]) |} ;;
  d <- lift (_process_response resp None) ;;
  sess <- lift (kwargs_of (new_Session E) d) ;;
  ret (set_register_id sess register_id).

(** [KarcherHome.logout].  The session object is updated in place: the
    value returned is its state after the call, and when the call raises
    the object is as it was. *)
Definition logout (self : KarcherHome) (sess : option Session) : M Session :=
  match sess with
  | None => raise AttributeError
  | Some s =>
      if String.eqb (auth_token s) "" || String.eqb (user_id s) ""
      then ret (reset s)
      else
        resp <- _request self sess "POST" "/user-center/auth/logout"
                  no_kwargs ;;
        _ <- lift (_process_response resp None) ;;
        ret (reset s)
  end.

(** The comprehension of [get_devices]: one [Device] built from the items
    of each element of [v]; iterating a list gives its elements, a dict its
    keys, a str its characters. *)
Definition devices_of (v : pyval) : result (list Device) :=
  match v with
  | PList l => map_result (kwargs_of (new_Device E)) l
  | PDict d => map_result (fun k => kwargs_of (new_Device E) (PStr k)) (keys d)
  | PStr s =>
      map_result (fun c => kwargs_of (new_Device E) (PStr (chr c)))
        (list_ascii_of_string s)
  | _ => inl TypeError
  end.

(** [KarcherHome.get_devices] *)
Definition get_devices (self : KarcherHome) (sess : option Session)
  : M (list Device) :=
  match sess with
  | Some s =>
      if String.eqb (auth_token s) "" || String.eqb (user_id s) ""
      then raise (KarcherHomeAccessDenied "Not authorized")
      else
        resp <- _request self sess "GET"
                  ("/smart-home-service/smartHome/user/getDeviceInfoByUserId/"
                     ++ user_id s) no_kwargs ;;
        v <- lift (_process_response resp None) ;;
        lift (devices_of v)
  | None => raise (KarcherHomeAccessDenied "Not authorized")
  end.

(** What [get_map_data] returns: the decoded map of [Map.parse], or the
    document of [json.loads]. *)
Inductive MapData : Type :=
| Parsed (m : FloorMap T)
| Loaded (v : pyval).

(** [KarcherHome.get_map_data] *)
Definition get_map_data (self : KarcherHome) (sess : option Session)
    (dev : Device) (map : Z) : M MapData :=
  let mapDir := TENANT_ID E ++ "/" ++ product_mode_code dev ++ "/"
                  ++ sn dev ++ "/01-01-2022/map/temp/0046690461_" ++ sn dev
                  ++ "_" ++ int_str map in
  match sess with
  | None => raise AttributeError
  | Some s =>
      resp <- _request self sess "POST"
                "/storage-management/storage/aws/getAccessUrl"
                {| kw_headers := None;
                   kw_params := None;
                   kw_json :=
                     Some (PDict [("dir", PStr mapDir);
                                  ("countryCode", get_country_code E s);
                                  ("serviceType", PInt 2);
                                  ("tenantId", PStr (TENANT_ID E))]) |} ;;
      d <- lift (_process_response resp None) ;;
      downloadUrl <- lift (getitem d "url") ;;
      has_cdn <- lift (contains d "cdnDomain") ;;
      downloadUrl <- lift (
        if has_cdn then
          cdn <~ getitem d "cdnDomain" ;;
          if negb (eq_str cdn "") then
            cdn <~ getitem d "cdnDomain" ;;
            a <~ str_add "https://" cdn ;;
            dir <~ getitem d "dir" ;;
            b <~ str_add (a ++ "/") dir ;;
            inr (PStr b)
          else inr downloadUrl
        else inr downloadUrl) ;;
      d <- _download downloadUrl ;;
      data <- lift (decrypt_map E (sn dev) (mac dev) (product_id dev) d) ;;
      if Z.eqb map 1 || Z.eqb map 2
      then m <- lift (Map_parse E data) ;; ret (Parsed m)
      else v <- lift (json_loads E data) ;; ret (Loaded v)
  end.

(** [KarcherHome.get_families] *)
Definition get_families (self : KarcherHome) (sess : option Session)
  : M pyval :=
  match sess with
  | Some s =>
      if String.eqb (auth_token s) "" || String.eqb (user_id s) ""
      then raise (KarcherHomeAccessDenied "Not authorized")
      else
        resp <- _request self sess "GET"
                  ("/smart-home-service/smartHome/familyInfo/list/"
                     ++ user_id s) no_kwargs ;;
        lift (_process_response resp None)
  | None => raise (KarcherHomeAccessDenied "Not authorized")
  end.

(** [KarcherHome.get_consumables] *)
Definition get_consumables (self : KarcherHome) (sess : option Session)
    (familyID : string) : M pyval :=
  match sess with
  | Some s =>
      if String.eqb (auth_token s) "" || String.eqb (user_id s) ""
      then raise (KarcherHomeAccessDenied "Not authorized")
      else
        resp <- _request self sess "GET"
                  ("/smart-home-service/smartHome/consumablesInfo/"
                     ++ "getConsumablesInfoByFamilyId/" ++ familyID)
                  no_kwargs ;;
        lift (_process_response resp None)
  | None => raise (KarcherHomeAccessDenied "Not authorized")
  end.

End Client.

Arguments Ext : clear implicits.
Arguments KarcherHome : clear implicits.
Arguments Build_KarcherHome : clear implicits.
Arguments MapData : clear implicits.
Arguments Parsed : clear implicits.
Arguments Loaded : clear implicits.

End Karcher.

Import Karcher.

(* ===================================================================== *)
(** ** A concrete set of collaborators *)
(* ===================================================================== *)

(** Stand-ins used to run the client on concrete inputs: the digest is the
    MD5 above, the cipher tags its argument, clock and random source read
    the tick, and the service answers every signed call with one given
    envelope and every download with one fixed blob. *)
Module Demo.

Definition access_envelope : pyval :=
  PDict [("code", PInt 0);
         ("msg", PStr "ok");
         ("result", PDict [("url", PStr "https://store.example/blob?sig=1");
                           ("cdnDomain", PStr "cdn.example");
                           ("dir", PStr "t/m/sn1/map_1")])].

Definition types : Types :=
  {| FloorMap := string; Region := unit; Language := unit |}.

Definition ext_with (envelope : pyval) : Ext types :=
  {| Language_EN := tt : Language types;
     Language_str := fun _ => "en";
     REGION_URLS := fun _ => "https://eu.example";
     TENANT_ID := "t";
     PROJECT_TYPE := PStr "android";
     PROTOCOL_VERSION := PStr "v1";
     APP_VERSION_CODE := PInt 7;
     APP_VERSION_NAME := PStr "1.0";
     md5 := MD5.md5;
     encrypt := fun s => "enc(" ++ s ++ ")";
     decrypt := fun v => match v with PStr s => inr s | _ => inl TypeError end;
     decrypt_map := fun _ _ _ blob => inr ("plain:" ++ blob);
     is_email := string_mem "@"%char;
     get_nonce := fun t => "n" ++ int_str (Z.of_nat t);
     get_timestamp := fun t => (1700000000 + Z.of_nat t)%Z;
     get_random_string := fun t _ => "r" ++ int_str (Z.of_nat t);
     handle_error_code := fun _ _ => Some (KarcherHomeAccessDenied "denied");
     json_loads := fun s => inr (PDict [("text", PStr s)]);
     parse_qs := fun s => [("q", PList [PStr s])];
     Map_parse := fun s => inr s;
     new_Session := fun d =>
       inr {| auth_token := "tok"; user_id := "u1";
              country_code := "DE"; register_id := "" |};
     new_Device := fun d =>
       inr {| sn := "sn1"; mac := "m"; product_id := "p";
              product_mode_code := "m" |};
     new_Domains := fun d => inr {| app_api := ""; mqtt := "" |};
     get_country_code := fun s => PStr (country_code s);
     session_request := fun _ _ =>
       inr {| status_code := 200; json := inr envelope; content := "" |};
     session_get := fun _ _ _ =>
       inr {| status_code := 200; json := inl (Foreign "JSONDecodeError");
              content := "blob" |} |}.

Definition ext : Ext types := ext_with access_envelope.

Definition home : KarcherHome types :=
  Build_KarcherHome types "https://eu.example" None tt.

Definition world : World := {| calls := []; ticks := 0 |}.

Definition session : Session :=
  {| auth_token := "tok"; user_id := "u1"; country_code := "DE";
     register_id := "r0" |}.

Definition device : Device :=
  {| sn := "sn1"; mac := "m"; product_id := "p"; product_mode_code := "m" |}.

(** The run of a signed POST of the given fields, from the first tick. *)
Definition post (fields : dict) : result Response * World :=
  _request ext home (Some session) "POST" "/x"
    {| kw_headers := None; kw_params := None; kw_json := Some (PDict fields) |}
    world.

End Demo.

(* ===================================================================== *)
(** ** The notions of the statements *)
(* ===================================================================== *)

(** *** What the spec says, in its own words *)

(** A session is authorized iff both auth token and user id are non-empty. *)
Definition authorized (sess : option Session) : Prop :=
  exists s, sess = Some s /\ auth_token s <> "" /\ user_id s <> "".

(** The rendering of a field value in the canonical body: the literal null
    for an absent value, the raw string for a textual one, compact JSON for
    a structured one, the string form otherwise. *)
Definition canonical_value (v : pyval) : string :=
  match v with
  | PNone => "null"
  | PStr s => s
  | PDict _ => json_dumps v
  | _ => str v
  end.

(** The canonical body of a structured body: for each field, in order, its
    name followed by its rendered value. *)
Fixpoint canonical_body (fields : dict) : string :=
  match fields with
  | [] => ""
  | (k, v) :: rest => k ++ canonical_value v ++ canonical_body rest
  end.

(** *** Arguments as [_request] reads them *)

(** The auth token that enters the signing string: empty without a session. *)
Definition auth_of (sess : option Session) : string :=
  match sess with
  | Some s => auth_token s
  | None => ""
  end.

(** The query parameters of a GET request as [_request] reads them: none
    when the argument is missing or empty, the dict itself, or the parse of
    a query string. *)
Definition query_params {T : Types} (E : Ext T) (kwargs : Kwargs)
  : option dict :=
  match kw_params kwargs with
  | None => Some []
  | Some p =>
      if truthy p then
        match p with
        | PDict d => Some d
        | PStr s => Some (parse_qs E s)
        | _ => None
        end
      else Some []
  end.

(** The fields of the JSON body as [_request] reads them for POST and PUT:
    none when the argument is missing or empty. *)
Definition json_fields (kwargs : Kwargs) : option dict :=
  match kw_json kwargs with
  | None => Some []
  | Some j =>
      if truthy j then match j with PDict d => Some d | _ => None end
      else Some []
  end.

(** *** The stages of [get_map_data] *)

Definition access_path : string :=
  "/storage-management/storage/aws/getAccessUrl".

(** The body of the access request of [get_map_data]. *)
Definition access_fields {T : Types} (E : Ext T) (s : Session) (dev : Device)
    (map : Z) : dict :=
  [("dir", PStr (TENANT_ID E ++ "/" ++ product_mode_code dev ++ "/"
                   ++ sn dev ++ "/01-01-2022/map/temp/0046690461_" ++ sn dev
                   ++ "_" ++ int_str map));
   ("countryCode", get_country_code E s);
   ("serviceType", PInt 2);
   ("tenantId", PStr (TENANT_ID E))].

Definition access_kwargs {T : Types} (E : Ext T) (s : Session) (dev : Device)
    (map : Z) : Kwargs :=
  {| kw_headers := None; kw_params := None;
     kw_json := Some (PDict (access_fields E s dev map)) |}.

(** The headers of the download. *)
Definition download_headers {T : Types} (E : Ext T)
  : list (string * string) :=
  [("User-Agent", "Android_" ++ TENANT_ID E)].

(** The choice of the download URL in [get_map_data], from the decoded
    access response. *)
Definition download_url (d : pyval) : result pyval :=
  url <~ getitem d "url" ;;
  has_cdn <~ contains d "cdnDomain" ;;
  if has_cdn then
    cdn <~ getitem d "cdnDomain" ;;
    if negb (eq_str cdn "") then
      cdn <~ getitem d "cdnDomain" ;;
      a <~ str_add "https://" cdn ;;
      dir <~ getitem d "dir" ;;
      b <~ str_add (a ++ "/") dir ;;
      inr (PStr b)
    else inr url
  else inr url.

(** [get_map_data] up to the decrypted blob: access request, envelope,
    download URL, download, decryption. *)
Definition map_blob {T : Types} (E : Ext T) (self : KarcherHome T)
    (sess : option Session) (dev : Device) (map : Z) : M string :=
  match sess with
  | None => raise AttributeError
  | Some s =>
      resp <- _request E self sess "POST" access_path
                (access_kwargs E s dev map) ;;
      d <- lift (_process_response E resp None) ;;
      url <- lift (download_url d) ;;
      blob <- _download E url ;;
      lift (decrypt_map E (sn dev) (mac dev) (product_id dev) blob)
  end.

(** The last two branches of [get_map_data]. *)
Definition decode_channel {T : Types} (E : Ext T) (map : Z) (data : string)
  : result (MapData T) :=
  if Z.eqb map 1 || Z.eqb map 2
  then m <~ Map_parse E data ;; inr (Parsed T m)
  else v <~ json_loads E data ;; inr (Loaded T v).

(** *** Calls to the transport *)

(** A computation is quiet when it makes no call. *)
Definition quiet {A : Type} (m : M A) : Prop :=
  forall w : World, calls (snd (m w)) = calls w.

(** A computation grows the list of calls: it only appends to it. *)
Definition grows {A : Type} (m : M A) : Prop :=
  forall w : World, exists rest, calls (snd (m w)) = (calls w ++ rest)%list.

(** *** The parts of [_request] *)

(** The auth string of [_request]: the token of the session when there is
    one and it is not empty. *)
Definition signing_auth (sess : option Session) : string :=
  match sess with
  | Some s => if negb (String.eqb (auth_token s) "") then auth_token s else ""
  | None => ""
  end.

(** The headers of [_request] before it signs: the headers of the caller,
    then User-Agent, authorization, id and tenantId. *)
Definition base_headers {T : Types} (E : Ext T) (sess : option Session)
    (kwargs : Kwargs) : list (string * string) :=
  let headers := match kw_headers kwargs with Some h => h | None => [] end in
  let headers := dict_set headers "User-Agent" ("Android_" ++ TENANT_ID E) in
  let headers :=
    match sess with
    | Some s =>
        if negb (String.eqb (auth_token s) "")
        then dict_set headers "authorization" (auth_token s)
        else headers
    | None => headers
    end in
  let headers :=
    match sess with
    | Some s =>
        if negb (String.eqb (user_id s) "")
        then dict_set headers "id" (user_id s)
        else headers
    | None => headers
    end in
  dict_set headers "tenantId" (TENANT_ID E).

(** The branch of [_request] on the method: the data to sign and the
    keyword arguments to pass on. *)
Definition canonical {T : Types} (E : Ext T) (method : string)
    (kwargs : Kwargs) : result (string * Kwargs) :=
  if String.eqb method "GET" then
    let params :=
      match kw_params kwargs with
      | Some p => if truthy p then p else PDict []
      | None => PDict []
      end in
    query <~ match params with
             | PStr s => inr (parse_qs E s)
             | PDict d => inr d
             | _ => inl TypeError
             end ;;
    let buf := urlencode query in
    inr (buf, {| kw_headers := kw_headers kwargs;
                 kw_params := Some (PStr buf);
                 kw_json := kw_json kwargs |})
  else if String.eqb method "POST" || String.eqb method "PUT" then
    let v :=
      match kw_json kwargs with
      | Some j => if truthy j then j else PDict []
      | None => PDict []
      end in
    match v with
    | PDict items =>
        inr (canonical_body items,
             {| kw_headers := kw_headers kwargs;
                kw_params := kw_params kwargs;
                kw_json := Some (PDict items) |})
    | _ => inr ("", kwargs)
    end
  else inr ("", kwargs).

(** The request [_request] hands to the transport, given the nonce, the
    timestamp and the outcome of the branch on the method. *)
Definition built_request {T : Types} (E : Ext T) (self : KarcherHome T)
    (sess : option Session) (method url : string) (kwargs : Kwargs)
    (nonce ts data : string) (passed : Kwargs) : Request :=
  {| req_method := method;
     req_url := _base_url self ++ url;
     req_headers :=
       dict_set
         (dict_set
            (dict_set (base_headers E sess kwargs) "sign"
               (md5 E (signing_auth sess ++ ts ++ nonce ++ data)))
            "ts" ts)
         "nonce" nonce;
     req_params := kw_params passed;
     req_json := kw_json passed |}.

(** The names of the headers [_request] sets itself. *)
Definition managed_header (k : string) : bool :=
  existsb (String.eqb k)
    ["User-Agent"; "authorization"; "id"; "tenantId"; "sign"; "ts"; "nonce"].

(** A run that makes exactly one call, the signed request [r]. *)
Definition sends {A : Type} (m : M A) (w : World) (r : Request) : Prop :=
  calls (snd (m w)) = (calls w ++ [Signed r])%list.

(** The world after the two readings and the one call of [_request]. *)
Definition after_request (w : World) (r : Request) : World :=
  {| calls := (calls w ++ [Signed r])%list; ticks := S (S (ticks w)) |}.

(** *** The envelope *)

(** An envelope passes the check of its code when the code is 0, or when
    [handle_error_code] returns instead of raising. *)
Definition accepted {T : Types} (E : Ext T) (data : dict) : Prop :=
  exists code : pyval,
    dict_get data "code" = Some code
    /\ (eq_int code 0 = true
        \/ exists msg : pyval,
             eq_int code 0 = false
             /\ dict_get data "msg" = Some msg
             /\ handle_error_code E code msg = None).

(** What [_process_response] makes of the result of an accepted envelope. *)
Definition unwrap {T : Types} (E : Ext T) (data : dict)
    (prop : option string) : result pyval :=
  match dict_get data "result" with
  | None => inr PNone
  | Some (PStr s) =>
      inl (KarcherHomeException (-2) ("Invalid response: " ++ s))
  | Some res =>
      match prop with
      | Some p =>
          field <~ getitem res p ;;
          plain <~ decrypt E field ;;
          json_loads E plain
      | None => inr res
      end
  end.

(** *** The parts of [login] *)

(** The world after one more reading of clock or random source. *)
Definition ticked (w : World) : World :=
  {| calls := calls w; ticks := S (ticks w) |}.

(** The registration id [login] uses: the one it is given unless that is
    None or empty, else 19 random characters. *)
Definition used_register_id {T : Types} (E : Ext T)
    (register_id : option string) (w : World) : string :=
  match register_id with
  | Some r => if String.eqb r "" then get_random_string E (ticks w) 19 else r
  | None => get_random_string E (ticks w) 19
  end.

(** The world in which [login] makes its request. *)
Definition login_world (register_id : option string) (w : World) : World :=
  match register_id with
  | Some r => if String.eqb r "" then ticked w else w
  | None => ticked w
  end.

(** The user name [login] encrypts. *)
Definition login_name {T : Types} (E : Ext T) (username : string) : string :=
  if negb (is_email E username) then "86-" ++ username else username.

(** The body of the request of [login]. *)
Definition login_fields {T : Types} (E : Ext T) (self : KarcherHome T)
    (username password register_id : string) : dict :=
  [("tenantId", PStr (TENANT_ID E));
   ("lang", PStr (Language_str E (_language self)));
   ("token", PNone);
   ("userId", PNone);
   ("password", PStr (encrypt E password));
   ("username", PStr (encrypt E (login_name E username)));
   ("authcode", PNone);
   ("projectType", PROJECT_TYPE E);
   ("versionCode", APP_VERSION_CODE E);
   ("versionName", APP_VERSION_NAME E);
   ("phoneBrand", PStr (encrypt E "xiaomi_mi 9"));
   ("phoneSys", PInt 1);
   ("noticeSetting", PDict [("andIpad", PStr register_id);
                            ("android", PStr register_id)])].

(** *** The requests of the listings *)

(** A signed GET without query made for the session [s]: nothing but
    token, timestamp and nonce is signed, and token and user id go out as
    headers. *)
Definition session_get_request {T : Types} (E : Ext T) (self : KarcherHome T)
    (s : Session) (path : string) (w : World) (r : Request) : Prop :=
  req_method r = "GET"
  /\ req_url r = _base_url self ++ path
  /\ req_params r = Some (PStr "")
  /\ req_json r = None
  /\ dict_get (req_headers r) "sign"
     = Some (md5 E (auth_token s
                      ++ int_str (get_timestamp E (S (ticks w)))
                      ++ get_nonce E (ticks w)))
  /\ dict_get (req_headers r) "authorization" = Some (auth_token s)
  /\ dict_get (req_headers r) "id" = Some (user_id s).

(** The world after the one call of [_download]. *)
Definition after_download {T : Types} (E : Ext T) (w : World) (url : pyval)
  : World :=
  {| calls := (calls w ++ [Download (str url) (download_headers E)])%list;
     ticks := ticks w |}.

(** *** The data that is signed *)

(** The data [_request] signs, in the terms of the statements above: the
    URL-encoded query of a GET, the canonical body of a POST or PUT whose
    JSON is a mapping (or is missing or falsy), nothing otherwise. *)
Definition signed_data {T : Types} (E : Ext T) (method : string)
    (kwargs : Kwargs) : string :=
  if String.eqb method "GET" then
    match query_params E kwargs with
    | Some d => urlencode d
    | None => ""
    end
  else if String.eqb method "POST" || String.eqb method "PUT" then
    match json_fields kwargs with
    | Some fields => canonical_body fields
    | None => ""
    end
  else "".

(** *** Stand-ins with other decoders *)

(** The stand-ins of [Demo.ext], but the blob decrypts to [text], the map
    decoder is [parse] and the JSON parser is [loads]. *)
Definition ext_decoding (text : string) (parse : string -> result string)
    (loads : string -> result pyval) : Ext Demo.types :=
  {| Language_EN := Language_EN Demo.ext;
     Language_str := Language_str Demo.ext;
     REGION_URLS := REGION_URLS Demo.ext;
     TENANT_ID := TENANT_ID Demo.ext;
     PROJECT_TYPE := PROJECT_TYPE Demo.ext;
     PROTOCOL_VERSION := PROTOCOL_VERSION Demo.ext;
     APP_VERSION_CODE := APP_VERSION_CODE Demo.ext;
     APP_VERSION_NAME := APP_VERSION_NAME Demo.ext;
     md5 := md5 Demo.ext;
     encrypt := encrypt Demo.ext;
     decrypt := decrypt Demo.ext;
     decrypt_map := fun _ _ _ _ => inr text;
     is_email := is_email Demo.ext;
     get_nonce := get_nonce Demo.ext;
     get_timestamp := get_timestamp Demo.ext;
     get_random_string := get_random_string Demo.ext;
     handle_error_code := handle_error_code Demo.ext;
     json_loads := loads;
     parse_qs := parse_qs Demo.ext;
     Map_parse := parse;
     new_Session := new_Session Demo.ext;
     new_Device := new_Device Demo.ext;
     new_Domains := new_Domains Demo.ext;
     get_country_code := get_country_code Demo.ext;
     session_request := session_request Demo.ext;
     session_get := session_get Demo.ext |}.

(** A blob that decrypts to the JSON text of a list of two numbers; the
    parser answers on that text as [json.loads] does, and knows no other. *)
Definition list_blob_ext : Ext Demo.types :=
  ext_decoding "[1, 2]" (fun s => inr s)
    (fun s => if String.eqb s "[1, 2]" then inr (PList [PInt 1; PInt 2])
              else inl (Foreign "JSONDecodeError")).

(* ===================================================================== *)
(** ** Dictionaries and strings *)
(* ===================================================================== *)

Lemma dict_get_set_same {A : Type} (d : list (string * A)) (k : string)
    (v : A) :
  dict_get (dict_set d k v) k = Some v.
Proof.
  induction d as [|[k' v'] d IH]; simpl.
  - now rewrite String.eqb_refl.
  - destruct (String.eqb k' k) eqn:Hk; simpl; rewrite Hk; auto.
Qed.

Lemma dict_get_set_other {A : Type} (d : list (string * A)) (k k' : string)
    (v : A) :
  k <> k' -> dict_get (dict_set d k v) k' = dict_get d k'.
Proof.
  intros Hne. induction d as [|[k0 v0] d IH]; simpl.
  - destruct (String.eqb_spec k k'); [contradiction | reflexivity].
  - destruct (String.eqb_spec k0 k) as [->|Hk0]; simpl.
    + destruct (String.eqb_spec k k'); [contradiction | reflexivity].
    + now rewrite IH.
Qed.

(** The three signature headers are the last ones [_request] sets. *)
Lemma signature_headers (hs : list (string * string)) (sg ts nonce : string) :
  let hs' :=
    dict_set (dict_set (dict_set hs "sign" sg) "ts" ts) "nonce" nonce in
  dict_get hs' "sign" = Some sg /\ dict_get hs' "ts" = Some ts
  /\ dict_get hs' "nonce" = Some nonce.
Proof.
  cbv zeta. repeat split.
  - rewrite !dict_get_set_other by discriminate. apply dict_get_set_same.
  - rewrite dict_get_set_other by discriminate. apply dict_get_set_same.
  - apply dict_get_set_same.
Qed.

Lemma append_assoc (a b c : string) : (a ++ b) ++ c = a ++ b ++ c.
Proof. induction a as [|x a IH]; simpl; [reflexivity | now rewrite IH]. Qed.

Lemma append_nil_r (a : string) : a ++ "" = a.
Proof. induction a as [|x a IH]; simpl; [reflexivity | now rewrite IH]. Qed.

Lemma append_inj_l (a b c : string) : a ++ b = a ++ c -> b = c.
Proof.
  induction a as [|x a IH]; simpl; intros H; [exact H | injection H; auto].
Qed.

Lemma append_eq_nil (a b : string) : a ++ b = "" -> a = "" /\ b = "".
Proof. destruct a; simpl; [auto | discriminate]. Qed.

(* ===================================================================== *)
(** ** Which calls reach the transport *)
(* ===================================================================== *)

Lemma quiet_ret {A : Type} (a : A) : quiet (ret a).
Proof. intros w. reflexivity. Qed.

Lemma quiet_raise {A : Type} (e : exn) : quiet (@raise A e).
Proof. intros w. reflexivity. Qed.

Lemma quiet_lift {A : Type} (r : result A) : quiet (lift r).
Proof. intros w. reflexivity. Qed.

Lemma quiet_tick : quiet tick.
Proof. intros w. reflexivity. Qed.

Lemma quiet_bind {A B : Type} (m : M A) (k : A -> M B) :
  quiet m -> (forall a, quiet (k a)) -> quiet (bind m k).
Proof.
  intros Hm Hk w. unfold bind. specialize (Hm w).
  destruct (m w) as [[e|a] w']; cbn [snd] in *; [exact Hm|].
  now rewrite Hk.
Qed.

(** After a quiet continuation the calls are those of the head. *)
Lemma bind_quiet_tail {A B : Type} (m : M A) (k : A -> M B) (w : World) :
  (forall a, quiet (k a)) -> calls (snd (bind m k w)) = calls (snd (m w)).
Proof.
  intros Hk. unfold bind.
  destruct (m w) as [[e|a] w']; cbn [snd]; [reflexivity | apply Hk].
Qed.

Ltac quiet :=
  repeat first
    [ apply quiet_bind; [|intros ?]
    | apply quiet_ret | apply quiet_raise | apply quiet_lift
    | apply quiet_tick
    | match goal with
      | |- quiet (if ?b then _ else _) => destruct b
      | |- quiet (match ?x with _ => _ end) => destruct x
      end ].

Lemma quiet_grows {A : Type} (m : M A) : quiet m -> grows m.
Proof. intros H w. exists []. now rewrite H, app_nil_r. Qed.

Lemma grows_bind {A B : Type} (m : M A) (k : A -> M B) :
  grows m -> (forall a, grows (k a)) -> grows (bind m k).
Proof.
  intros Hm Hk w. unfold bind. destruct (Hm w) as [r1 H1].
  destruct (m w) as [[e|a] w']; cbn [snd] in *; [eauto|].
  destruct (Hk a w') as [r2 H2]. exists (r1 ++ r2)%list.
  now rewrite H2, H1, app_assoc.
Qed.

Lemma grows_download {T : Types} (E : Ext T) (url : pyval) :
  grows (_download E url).
Proof.
  intros w. unfold _download, bind, get. cbn [calls ticks].
  destruct (session_get E _ _ _) as [e|resp]; [eexists; reflexivity|].
  destruct (negb (Z.eqb (status_code resp) 200)); eexists; reflexivity.
Qed.

(* ===================================================================== *)
(** ** The envelope decoder *)
(* ===================================================================== *)

(** C6. A response with HTTP status 200 and envelope code 0 whose result
    is a bare string is rejected: decoding raises the exception with code
    -2 and the text of the result (the malformed-response failure), and so
    never returns the string as a value. *)
Theorem C6_bare_string_result_is_malformed :
  forall (T : Types) (E : Ext T) (resp : Response) (prop : option string)
         (data : dict) (s : string),
    status_code resp = 200%Z ->
    json resp = inr (PDict data) ->
    dict_get data "code" = Some (PInt 0) ->
    dict_get data "result" = Some (PStr s) ->
    _process_response E resp prop
    = inl (KarcherHomeException (-2) ("Invalid response: " ++ s)).
Proof.
  intros T E resp prop data s Hst Hjs Hcode Hres.
  unfold _process_response. rewrite Hst, Hjs. simpl.
  rewrite Hcode. simpl. unfold dict_mem. now rewrite Hres.
Qed.

Lemma C6_witness :
  let data := [("code", PInt 0); ("result", PStr "some error text")] in
  let resp := {| status_code := 200; json := inr (PDict data);
                 content := "" |} in
  (status_code resp = 200%Z /\ json resp = inr (PDict data)
   /\ dict_get data "code" = Some (PInt 0)
   /\ dict_get data "result" = Some (PStr "some error text"))
  /\ _process_response Demo.ext resp None
     = inl (KarcherHomeException (-2) "Invalid response: some error text").
Proof.
  intros data resp. split.
  - repeat split.
  - apply (C6_bare_string_result_is_malformed _ Demo.ext resp None data
             "some error text"); reflexivity.
Defined.

(** C10. With status 200, envelope code 0 and a result that is a mapping,
    asking for a named field that the mapping does not have raises the
    untyped key-lookup error for that name, not one of the typed failures. *)
Theorem C10_missing_field_raises_KeyError :
  forall (T : Types) (E : Ext T) (resp : Response) (data fields : dict)
         (p : string),
    status_code resp = 200%Z ->
    json resp = inr (PDict data) ->
    dict_get data "code" = Some (PInt 0) ->
    dict_get data "result" = Some (PDict fields) ->
    dict_get fields p = None ->
    _process_response E resp (Some p) = inl (KeyError p).
Proof.
  intros T E resp data fields p Hst Hjs Hcode Hres Hp.
  unfold _process_response. rewrite Hst, Hjs. simpl.
  rewrite Hcode. simpl. unfold dict_mem. rewrite Hres. simpl.
  now rewrite Hp.
Qed.

Lemma C10_witness :
  let fields := [("other", PStr "x")] in
  let data := [("code", PInt 0); ("result", PDict fields)] in
  let resp := {| status_code := 200; json := inr (PDict data);
                 content := "" |} in
  (status_code resp = 200%Z /\ json resp = inr (PDict data)
   /\ dict_get data "code" = Some (PInt 0)
   /\ dict_get data "result" = Some (PDict fields)
   /\ dict_get fields "domain" = None)
  /\ _process_response Demo.ext resp (Some "domain") = inl (KeyError "domain").
Proof.
  intros fields data resp. split.
  - repeat split.
  - apply (C10_missing_field_raises_KeyError _ Demo.ext resp data fields
             "domain"); reflexivity.
Defined.

(* ===================================================================== *)
(** ** Local authorization checks *)
(* ===================================================================== *)

Lemma not_authorized_cases (s : Session) :
  ~ authorized (Some s) ->
  (String.eqb (auth_token s) "" || String.eqb (user_id s) "")%bool = true.
Proof.
  intros H.
  destruct (String.eqb_spec (auth_token s) ""); [reflexivity|].
  destruct (String.eqb_spec (user_id s) ""); [reflexivity|].
  exfalso. apply H. exists s. auto.
Qed.

Lemma authorized_cases (s : Session) :
  authorized (Some s) ->
  (String.eqb (auth_token s) "" || String.eqb (user_id s) "")%bool = false.
Proof.
  intros (s' & Hs & Ha & Hu). injection Hs as <-.
  destruct (String.eqb_spec (auth_token s) ""); [contradiction|].
  destruct (String.eqb_spec (user_id s) ""); [contradiction|reflexivity].
Qed.

(** C3. When the session is None or not authorized, each of get_devices,
    get_families and get_consumables raises the access-denied exception
    and leaves the world as it was: no call reaches the transport. *)
Theorem C3_unauthorized_is_rejected_locally :
  forall (T : Types) (E : Ext T) (self : KarcherHome T) (sess : option Session)
         (familyID : string) (w : World),
    ~ authorized sess ->
    get_devices E self sess w
    = (inl (KarcherHomeAccessDenied "Not authorized"), w)
    /\ get_families E self sess w
       = (inl (KarcherHomeAccessDenied "Not authorized"), w)
    /\ get_consumables E self sess familyID w
       = (inl (KarcherHomeAccessDenied "Not authorized"), w).
Proof.
  intros T E self [s|] familyID w H;
    unfold get_devices, get_families, get_consumables.
  - rewrite (not_authorized_cases s H). repeat split.
  - repeat split.
Qed.

Lemma C3_witness :
  let sess := Some {| auth_token := "tok"; user_id := "";
                      country_code := "DE"; register_id := "r" |} in
  ~ authorized sess
  /\ get_devices Demo.ext Demo.home sess Demo.world
     = (inl (KarcherHomeAccessDenied "Not authorized"), Demo.world)
  /\ get_families Demo.ext Demo.home sess Demo.world
     = (inl (KarcherHomeAccessDenied "Not authorized"), Demo.world)
  /\ get_consumables Demo.ext Demo.home sess "f1" Demo.world
     = (inl (KarcherHomeAccessDenied "Not authorized"), Demo.world).
Proof.
  intros sess.
  assert (H : ~ authorized sess).
  { intros (s & Hs & _ & Hu). injection Hs as <-. apply Hu. reflexivity. }
  split; [exact H|].
  apply (C3_unauthorized_is_rejected_locally _ Demo.ext Demo.home sess "f1"
           Demo.world H).
Defined.

(* ===================================================================== *)
(** ** The canonical signer *)
(* ===================================================================== *)

(** The loop of [_request] over the fields appends the canonical body. *)
Lemma sign_loop (fields : dict) (acc : string) :
  fold_left
    (fun data kv =>
       let '(key, val) := kv in
       let data := data ++ key in
       if eq_None val then data ++ "null"
       else match val with
            | PStr s => data ++ s
            | PDict _ => data ++ json_dumps val
            | _ => data ++ str val
            end)
    fields acc
  = acc ++ canonical_body fields.
Proof.
  revert acc. induction fields as [|[k v] fields IH]; intros acc; simpl.
  - now rewrite append_nil_r.
  - rewrite IH. destruct v; cbn [eq_None canonical_value];
      now rewrite !append_assoc.
Qed.

Lemma json_fields_dict (kwargs : Kwargs) (fields : dict) :
  kw_json kwargs = Some (PDict fields) -> json_fields kwargs = Some fields.
Proof.
  unfold json_fields. intros ->. destruct fields; reflexivity.
Qed.

(** What [_request] does for POST and PUT. *)
Lemma request_post_run {T : Types} (E : Ext T) (self : KarcherHome T)
    (sess : option Session) (method url : string) (kwargs : Kwargs)
    (w : World) (fields : dict) :
  method = "POST" \/ method = "PUT" ->
  json_fields kwargs = Some fields ->
  let nonce := get_nonce E (ticks w) in
  let ts := int_str (get_timestamp E (S (ticks w))) in
  exists r : Request,
    _request E self sess method url kwargs w
    = (session_request E (calls w) r,
       {| calls := (calls w ++ [Signed r])%list; ticks := S (S (ticks w)) |})
    /\ req_method r = method
    /\ req_url r = _base_url self ++ url
    /\ req_params r = kw_params kwargs
    /\ req_json r = Some (PDict fields)
    /\ dict_get (req_headers r) "sign"
       = Some (md5 E (auth_of sess ++ ts ++ nonce ++ canonical_body fields))
    /\ dict_get (req_headers r) "ts" = Some ts
    /\ dict_get (req_headers r) "nonce" = Some nonce.
Proof.
  intros Hm Hj nonce ts.
  assert (Hmeth : String.eqb method "GET" = false
                  /\ (String.eqb method "POST"
                      || String.eqb method "PUT")%bool = true).
  { destruct Hm as [-> | ->]; split; reflexivity. }
  destruct Hmeth as [Hget Hpost].
  unfold _request, bind, tick, lift, request. cbn [ticks calls].
  rewrite Hget, Hpost.
  match goal with
  | |- context [let '(a, h) := ?p in _] =>
      assert (Hp : exists hs, p = (auth_of sess, hs))
  end.
  { destruct sess as [s|]; cbn [auth_of]; [|eauto].
    destruct (String.eqb_spec (auth_token s) "") as [->|]; cbn [negb]; eauto. }
  destruct Hp as [hs ->].
  assert (Hv : match kw_json kwargs with
               | Some j => if truthy j then j else PDict []
               | None => PDict []
               end = PDict fields).
  { unfold json_fields in Hj. destruct (kw_json kwargs) as [j|].
    - destruct (truthy j); [destruct j; try discriminate|]; congruence.
    - congruence. }
  rewrite Hv, sign_loop. cbn [append kw_params kw_json calls ticks].
  eexists. split; [reflexivity|].
  cbn [req_method req_url req_params req_json req_headers].
  repeat split; apply signature_headers.
Qed.

Lemma urlencode_empty_iff (d : dict) : urlencode d = "" <-> d = [].
Proof.
  split; [|intros ->; reflexivity].
  destruct d as [|[k v] d]; [reflexivity|].
  unfold urlencode. cbn [map fst snd String.concat]. intros H.
  destruct (map _ d).
  - apply append_eq_nil in H as [_ H]. discriminate.
  - apply append_eq_nil in H as [H _].
    apply append_eq_nil in H as [_ H]. discriminate.
Qed.

(** What [_request] does for GET. *)
Lemma request_get_run {T : Types} (E : Ext T) (self : KarcherHome T)
    (sess : option Session) (url : string) (kwargs : Kwargs) (w : World)
    (d : dict) :
  query_params E kwargs = Some d ->
  let nonce := get_nonce E (ticks w) in
  let ts := int_str (get_timestamp E (S (ticks w))) in
  exists r : Request,
    _request E self sess "GET" url kwargs w
    = (session_request E (calls w) r,
       {| calls := (calls w ++ [Signed r])%list; ticks := S (S (ticks w)) |})
    /\ req_method r = "GET"
    /\ req_url r = _base_url self ++ url
    /\ req_params r = Some (PStr (urlencode d))
    /\ req_json r = kw_json kwargs
    /\ dict_get (req_headers r) "sign"
       = Some (md5 E (auth_of sess ++ ts ++ nonce ++ urlencode d))
    /\ dict_get (req_headers r) "ts" = Some ts
    /\ dict_get (req_headers r) "nonce" = Some nonce.
Proof.
  intros Hq nonce ts.
  unfold _request, bind, tick, lift, request.
  cbn [ticks calls String.eqb Ascii.eqb Bool.eqb].
  match goal with
  | |- context [let '(a, h) := ?p in _] =>
      assert (Hp : exists hs, p = (auth_of sess, hs))
  end.
  { destruct sess as [s|]; cbn [auth_of]; [|eauto].
    destruct (String.eqb_spec (auth_token s) "") as [->|]; cbn [negb]; eauto. }
  destruct Hp as [hs ->].
  assert (Hv : and_then
                 match match kw_params kwargs with
                       | Some p => if truthy p then p else PDict []
                       | None => PDict []
                       end with
                 | PStr s => inr (parse_qs E s)
                 | PDict d0 => inr d0
                 | _ => inl TypeError
                 end
                 (fun query => inr (urlencode query,
                                    {| kw_headers := kw_headers kwargs;
                                       kw_params :=
                                         Some (PStr (urlencode query));
                                       kw_json := kw_json kwargs |}))
               = inr (urlencode d,
                      {| kw_headers := kw_headers kwargs;
                         kw_params := Some (PStr (urlencode d));
                         kw_json := kw_json kwargs |})).
  { unfold query_params in Hq. destruct (kw_params kwargs) as [p|].
    - destruct (truthy p); [destruct p; try discriminate|];
        injection Hq as <-; reflexivity.
    - injection Hq as <-. reflexivity. }
  rewrite Hv. cbn [kw_params kw_json calls ticks].
  eexists. split; [reflexivity|].
  cbn [req_method req_url req_params req_json req_headers].
  repeat split; apply signature_headers.
Qed.

(** C1, as the code has it.  For every GET request the canonical body that
    enters the signature is the URL-encoded query string, the very string
    that is sent as the query: the signature is the digest of auth token,
    timestamp, nonce and that string.  The body is empty exactly when
    there are no query parameters, and only then is the signature the
    digest of auth token, timestamp and nonce alone. *)
Theorem C1_get_signature_covers_query :
  forall (T : Types) (E : Ext T) (self : KarcherHome T) (sess : option Session)
         (url : string) (kwargs : Kwargs) (w : World) (d : dict),
    query_params E kwargs = Some d ->
    let nonce := get_nonce E (ticks w) in
    let ts := int_str (get_timestamp E (S (ticks w))) in
    exists r : Request,
      calls (snd (_request E self sess "GET" url kwargs w))
      = (calls w ++ [Signed r])%list
      /\ req_method r = "GET"
      /\ req_params r = Some (PStr (urlencode d))
      /\ dict_get (req_headers r) "sign"
         = Some (md5 E (auth_of sess ++ ts ++ nonce ++ urlencode d))
      /\ dict_get (req_headers r) "ts" = Some ts
      /\ dict_get (req_headers r) "nonce" = Some nonce
      /\ (urlencode d = "" <-> d = [])
      /\ (d = [] ->
          dict_get (req_headers r) "sign"
          = Some (md5 E (auth_of sess ++ ts ++ nonce))).
Proof.
  intros T E self sess url kwargs w d Hq nonce ts.
  destruct (request_get_run E self sess url kwargs w d Hq)
    as (r & Hrun & Hm & _ & Hp & _ & Hs & Ht & Hn).
  exists r. rewrite Hrun. cbn [snd calls].
  repeat split; auto; try apply urlencode_empty_iff.
  intros ->. rewrite Hs. cbn [urlencode map String.concat].
  now rewrite !append_nil_r.
Qed.

Lemma C1_counterexample :
  let kwargs := {| kw_headers := None;
                   kw_params := Some (PDict [("tenantId", PStr "t");
                                             ("productModeCode",
                                              PStr "android");
                                             ("version", PStr "v1")]);
                   kw_json := None |} in
  exists r : Request,
    calls (snd (_request Demo.ext Demo.home None "GET"
                  "/network-service/domains/list" kwargs Demo.world))
    = [Signed r]
    /\ req_method r = "GET"
    /\ dict_get (req_headers r) "ts" = Some "1700000001"
    /\ dict_get (req_headers r) "nonce" = Some "n0"
    /\ dict_get (req_headers r) "sign"
       = Some (MD5.md5 ("" ++ "1700000001" ++ "n0"
                           ++ "tenantId=t&productModeCode=android&version=v1"))
    /\ dict_get (req_headers r) "sign"
       <> Some (MD5.md5 ("" ++ "1700000001" ++ "n0" ++ "")).
Proof.
  intros kwargs. eexists. split; [vm_compute; reflexivity|].
  vm_compute. repeat split. discriminate.
Qed.

Lemma C1_witness :
  let kwargs := {| kw_headers := None;
                   kw_params := Some (PDict [("tenantId", PStr "t")]);
                   kw_json := None |} in
  query_params Demo.ext kwargs = Some [("tenantId", PStr "t")]
  /\ exists r : Request,
       calls (snd (_request Demo.ext Demo.home None "GET" "/list" kwargs
                     Demo.world))
       = [Signed r]
       /\ req_params r = Some (PStr "tenantId=t")
       /\ dict_get (req_headers r) "sign"
          = Some (MD5.md5 ("" ++ "1700000001" ++ "n0" ++ "tenantId=t")).
Proof.
  intros kwargs. split; [reflexivity|].
  destruct (C1_get_signature_covers_query _ Demo.ext Demo.home None "/list"
              kwargs Demo.world [("tenantId", PStr "t")] eq_refl)
    as (r & Hc & _ & Hp & Hs & _).
  exists r. vm_compute in Hc, Hp, Hs |- *. repeat split; assumption.
Defined.

(** The one GET of the client that has query parameters: [get_urls]
    signs its query string. *)
Lemma get_urls_signs_its_query {T : Types} (E : Ext T) (self : KarcherHome T)
    (w : World) :
  let query := [("tenantId", PStr (TENANT_ID E));
                ("productModeCode", PROJECT_TYPE E);
                ("version", PROTOCOL_VERSION E)] in
  exists r : Request,
    calls (snd (get_urls E self w)) = (calls w ++ [Signed r])%list
    /\ req_method r = "GET"
    /\ req_url r = _base_url self ++ "/network-service/domains/list"
    /\ req_params r = Some (PStr (urlencode query))
    /\ dict_get (req_headers r) "sign"
       = Some (md5 E ("" ++ int_str (get_timestamp E (S (ticks w)))
                         ++ get_nonce E (ticks w) ++ urlencode query)).
Proof.
  intros query. unfold get_urls.
  rewrite bind_quiet_tail by (intros resp; quiet).
  match goal with
  | |- context [_request E self None "GET" ?u ?kw w] =>
      destruct (request_get_run E self None u kw w query eq_refl)
        as (r & Hrun & Hm & Hu & Hp & _ & Hs & _)
  end.
  exists r. rewrite Hrun. auto.
Qed.

(** C2, as the code has it.  For every POST or PUT request with a
    structured body, the canonical body is the concatenation, over the
    fields in insertion order, of the field name and its value rendered as
    the literal null for an absent value, the raw string for a textual one,
    compact JSON for a structured one (a mapping) and the string form
    otherwise; the body is transmitted with its fields in that order, and
    the signature is the digest of auth token, timestamp, nonce and
    canonical body.  Another order of the fields, signed at the same
    instant, gives another signing string exactly when it gives another
    concatenation, and the same signature when it gives the same one. *)
Theorem C2_post_body_in_insertion_order :
  forall (T : Types) (E : Ext T) (self : KarcherHome T)
         (sess : option Session) (method url : string) (kwargs : Kwargs)
         (w : World) (fields : dict),
    method = "POST" \/ method = "PUT" ->
    kw_json kwargs = Some (PDict fields) ->
    let nonce := get_nonce E (ticks w) in
    let ts := int_str (get_timestamp E (S (ticks w))) in
    let signing := fun body : string => auth_of sess ++ ts ++ nonce ++ body in
    exists r : Request,
      calls (snd (_request E self sess method url kwargs w))
      = (calls w ++ [Signed r])%list
      /\ req_json r = Some (PDict fields)
      /\ dict_get (req_headers r) "sign"
         = Some (md5 E (signing (canonical_body fields)))
      /\ forall (kwargs' : Kwargs) (fields' : dict),
           kw_json kwargs' = Some (PDict fields') ->
           exists r' : Request,
             calls (snd (_request E self sess method url kwargs' w))
             = (calls w ++ [Signed r'])%list
             /\ dict_get (req_headers r') "sign"
                = Some (md5 E (signing (canonical_body fields')))
             /\ (signing (canonical_body fields')
                 = signing (canonical_body fields)
                 <-> canonical_body fields' = canonical_body fields)
             /\ (canonical_body fields' = canonical_body fields ->
                 dict_get (req_headers r') "sign"
                 = dict_get (req_headers r) "sign").
Proof.
  intros T E self sess method url kwargs w fields Hm Hj nonce ts signing.
  destruct (request_post_run E self sess method url kwargs w fields Hm
              (json_fields_dict kwargs fields Hj))
    as (r & Hrun & _ & _ & _ & Hjs & Hs & _).
  exists r. rewrite Hrun. cbn [snd calls].
  split; [reflexivity|]. split; [exact Hjs|]. split; [exact Hs|].
  intros kwargs' fields' Hj'.
  destruct (request_post_run E self sess method url kwargs' w fields' Hm
              (json_fields_dict kwargs' fields' Hj'))
    as (r' & Hrun' & _ & _ & _ & _ & Hs' & _).
  exists r'. rewrite Hrun'. cbn [snd calls].
  split; [reflexivity|]. split; [exact Hs'|]. split.
  - unfold signing. split.
    + intros H. now do 3 apply append_inj_l in H.
    + now intros ->.
  - intros Heq. rewrite Hs, Hs'. unfold signing. now rewrite Heq.
Qed.

Lemma C2_witness :
  let fields := [("dir", PStr "d"); ("n", PInt 2); ("x", PNone);
                 ("o", PDict [("k", PList [PInt 1; PBool true])])] in
  let kwargs := {| kw_headers := None; kw_params := None;
                   kw_json := Some (PDict fields) |} in
  ("POST" = "POST" \/ "POST" = "PUT")
  /\ kw_json kwargs = Some (PDict fields)
  /\ canonical_body fields
     = "dird" ++ "n2" ++ "xnull" ++ "o"
       ++ String "{" (String dquote ("k" ++ String dquote ":[1,true]}"))
  /\ exists r : Request,
       calls (snd (_request Demo.ext Demo.home (Some Demo.session) "POST"
                     "/x" kwargs Demo.world))
       = [Signed r]
       /\ req_json r = Some (PDict fields)
       /\ dict_get (req_headers r) "sign"
          = Some (MD5.md5 ("tok" ++ "1700000001" ++ "n0"
                             ++ canonical_body fields)).
Proof.
  intros fields kwargs.
  split; [left; reflexivity|]. split; [reflexivity|]. split; [reflexivity|].
  destruct (C2_post_body_in_insertion_order _ Demo.ext Demo.home
              (Some Demo.session) "POST" "/x" kwargs Demo.world fields
              (or_introl eq_refl) eq_refl)
    as (r & Hc & Hj & Hs & _).
  exists r. vm_compute in Hc, Hj, Hs |- *. repeat split; assumption.
Defined.

Lemma C2_counterexample :
  let f1 := [("a", PStr "ba"); ("ab", PStr "a")] in
  let f2 := [("ab", PStr "a"); ("a", PStr "ba")] in
  Permutation f1 f2 /\ f1 <> f2
  /\ exists r1 r2 : Request,
       calls (snd (Demo.post f1)) = [Signed r1]
       /\ calls (snd (Demo.post f2)) = [Signed r2]
       /\ req_json r1 = Some (PDict f1)
       /\ req_json r2 = Some (PDict f2)
       /\ dict_get (req_headers r1) "sign"
          = Some (MD5.md5 ("tok" ++ "1700000001" ++ "n0" ++ "abaaba"))
       /\ dict_get (req_headers r2) "sign" = dict_get (req_headers r1) "sign".
Proof.
  intros f1 f2. split; [apply perm_swap|]. split; [discriminate|].
  do 2 eexists.
  split; [vm_compute; reflexivity|]. split; [vm_compute; reflexivity|].
  vm_compute. repeat split.
Qed.

(** Order does matter in general: the same two fields in the two orders,
    signed at the same instant, get different signatures. *)
Example reordered_fields_sign_differently :
  exists r1 r2 : Request,
    calls (snd (Demo.post [("a", PInt 1); ("b", PInt 2)])) = [Signed r1]
    /\ calls (snd (Demo.post [("b", PInt 2); ("a", PInt 1)])) = [Signed r2]
    /\ dict_get (req_headers r1) "sign"
       = Some (MD5.md5 ("tok" ++ "1700000001" ++ "n0" ++ "a1b2"))
    /\ dict_get (req_headers r2) "sign"
       = Some (MD5.md5 ("tok" ++ "1700000001" ++ "n0" ++ "b2a1"))
    /\ dict_get (req_headers r1) "sign" <> dict_get (req_headers r2) "sign".
Proof.
  do 2 eexists.
  split; [vm_compute; reflexivity|]. split; [vm_compute; reflexivity|].
  vm_compute. repeat split. discriminate.
Qed.

(* ===================================================================== *)
(** ** Login and logout *)
(* ===================================================================== *)

(** C8. When the username is not an email address, login sends one signed
    POST whose body carries, as username, the field encryption of 86-
    followed by the username, and as password the field encryption of the
    password. *)
Theorem C8_login_prefixes_and_encrypts :
  forall (T : Types) (E : Ext T) (self : KarcherHome T)
         (username password : string) (register_id : option string)
         (w : World),
    is_email E username = false ->
    exists (r : Request) (body : dict),
      calls (snd (login E self username password register_id w))
      = (calls w ++ [Signed r])%list
      /\ req_method r = "POST"
      /\ req_url r = _base_url self ++ "/user-center/auth/login"
      /\ req_json r = Some (PDict body)
      /\ dict_get body "username" = Some (PStr (encrypt E ("86-" ++ username)))
      /\ dict_get body "password" = Some (PStr (encrypt E password)).
Proof.
  intros T E self username password register_id w Hmail.
  unfold login. rewrite Hmail. cbn [negb].
  set (first := match register_id with
                | Some r => if String.eqb r "" then _ else _
                | None => _
                end).
  assert (Hfirst : exists rid w1,
             first w = (inr rid, w1) /\ calls w1 = calls w).
  { subst first. destruct register_id as [r|]; [destruct (String.eqb r "")|];
      unfold bind, tick, ret; cbn; eauto. }
  destruct Hfirst as (rid & w1 & Hf & Hc).
  unfold bind at 1. rewrite Hf.
  rewrite bind_quiet_tail by (intros resp; quiet).
  match goal with
  | |- context [_request E self None "POST" ?u ?kw w1] =>
      destruct (request_post_run E self None "POST" u kw w1 _
                  (or_introl eq_refl) eq_refl)
        as (r & Hrun & Hm & Hu & _ & Hj & _)
  end.
  exists r. eexists. rewrite Hrun. cbn [snd calls]. rewrite Hc.
  split; [reflexivity|]. split; [exact Hm|]. split; [exact Hu|].
  split; [exact Hj|]. split; reflexivity.
Qed.

Lemma C8_witness :
  is_email Demo.ext "12345" = false
  /\ exists (r : Request) (body : dict),
       calls (snd (login Demo.ext Demo.home "12345" "secret" None
                     Demo.world))
       = [Signed r]
       /\ req_json r = Some (PDict body)
       /\ dict_get body "username" = Some (PStr (encrypt Demo.ext "86-12345"))
       /\ dict_get body "password" = Some (PStr (encrypt Demo.ext "secret")).
Proof.
  split; [reflexivity|].
  destruct (C8_login_prefixes_and_encrypts _ Demo.ext Demo.home "12345" "secret"
              None Demo.world eq_refl)
    as (r & body & Hc & _ & _ & Hj & Hu & Hp).
  exists r, body. repeat split; assumption.
Defined.

(** C7. Logout on a session that is not authorized empties the session
    and returns without any call to the transport; on an authorized
    session it sends one signed POST to the logout endpoint. *)
Theorem C7_logout_of_empty_session_is_local :
  forall (T : Types) (E : Ext T) (self : KarcherHome T) (s : Session)
         (w : World),
    (~ authorized (Some s) ->
     logout E self (Some s) w = (inr empty_session, w))
    /\ (authorized (Some s) ->
        exists r : Request,
          calls (snd (logout E self (Some s) w))
          = (calls w ++ [Signed r])%list
          /\ req_method r = "POST"
          /\ req_url r = _base_url self ++ "/user-center/auth/logout").
Proof.
  intros T E self s w. unfold logout. split; intros H.
  - now rewrite (not_authorized_cases s H).
  - rewrite (authorized_cases s H).
    rewrite bind_quiet_tail by (intros resp; quiet).
    destruct (request_post_run E self (Some s) "POST"
                "/user-center/auth/logout" no_kwargs w []
                (or_introl eq_refl) eq_refl)
      as (r & Hrun & Hm & Hu & _).
    exists r. rewrite Hrun. auto.
Qed.

Lemma C7_witness :
  ~ authorized (Some empty_session)
  /\ logout Demo.ext Demo.home (Some empty_session) Demo.world
     = (inr empty_session, Demo.world)
  /\ authorized (Some Demo.session)
  /\ exists r : Request,
       calls (snd (logout Demo.ext Demo.home (Some Demo.session) Demo.world))
       = [Signed r]
       /\ req_url r = "https://eu.example/user-center/auth/logout".
Proof.
  assert (H0 : ~ authorized (Some empty_session)).
  { intros (s & Hs & Ha & _). injection Hs as <-. now apply Ha. }
  assert (H1 : authorized (Some Demo.session)).
  { exists Demo.session. repeat split; discriminate. }
  split; [exact H0|].
  split; [exact (proj1 (C7_logout_of_empty_session_is_local _ Demo.ext Demo.home
                          empty_session Demo.world) H0)|].
  split; [exact H1|].
  destruct (proj2 (C7_logout_of_empty_session_is_local _ Demo.ext Demo.home
                     Demo.session Demo.world) H1) as (r & Hc & _ & Hu).
  exists r. split; [exact Hc | exact Hu].
Defined.

(* ===================================================================== *)
(** ** Map retrieval *)
(* ===================================================================== *)

Lemma get_map_data_stages {T : Types} (E : Ext T) (self : KarcherHome T)
    (sess : option Session) (dev : Device) (map : Z) (w : World) :
  get_map_data E self sess dev map w
  = bind (map_blob E self sess dev map)
      (fun data => lift (decode_channel E map data)) w.
Proof.
  unfold get_map_data, map_blob, decode_channel, download_url,
    access_kwargs, access_fields, access_path.
  destruct sess as [s|]; [|reflexivity].
  unfold bind, lift, ret, and_then.
  destruct (_request _ _ _ _ _ _ _) as [[e|resp] w1]; [reflexivity|].
  destruct (_process_response E resp None) as [e|d]; [reflexivity|].
  destruct (getitem d "url") as [e|url]; [reflexivity|].
  destruct (contains d "cdnDomain") as [e|[|]]; [reflexivity| |].
  - destruct (getitem d "cdnDomain") as [e|cdn]; [reflexivity|].
    destruct (negb (eq_str cdn "")).
    + destruct (str_add "https://" cdn) as [e|a]; [reflexivity|].
      destruct (getitem d "dir") as [e|dir]; [reflexivity|].
      destruct (str_add (a ++ "/") dir) as [e|b]; [reflexivity|].
      destruct (_download E (PStr b) w1) as [[e|blob] w2]; [reflexivity|].
      destruct (decrypt_map E _ _ _ blob) as [e|data]; [reflexivity|].
      destruct (Z.eqb map 1 || Z.eqb map 2)%bool;
        [destruct (Map_parse E data) | destruct (json_loads E data)];
        reflexivity.
    + destruct (_download E url w1) as [[e|blob] w2]; [reflexivity|].
      destruct (decrypt_map E _ _ _ blob) as [e|data]; [reflexivity|].
      destruct (Z.eqb map 1 || Z.eqb map 2)%bool;
        [destruct (Map_parse E data) | destruct (json_loads E data)];
        reflexivity.
  - destruct (_download E url w1) as [[e|blob] w2]; [reflexivity|].
    destruct (decrypt_map E _ _ _ blob) as [e|data]; [reflexivity|].
    destruct (Z.eqb map 1 || Z.eqb map 2)%bool;
      [destruct (Map_parse E data) | destruct (json_loads E data)];
      reflexivity.
Qed.

Lemma download_calls {T : Types} (E : Ext T) (url : pyval) (w : World) :
  calls (snd (_download E url w))
  = (calls w ++ [Download (str url) (download_headers E)])%list.
Proof.
  unfold _download, bind, get. cbn [calls ticks].
  destruct (session_get E _ _ _) as [e|resp]; [reflexivity|].
  destruct (negb (Z.eqb (status_code resp) 200)); reflexivity.
Qed.

(** Once the access response is decoded, the one further call of
    [get_map_data] is the download of the chosen URL. *)
Lemma map_download_call {T : Types} (E : Ext T) (self : KarcherHome T)
    (s : Session) (dev : Device) (map : Z) (w w1 : World) (resp : Response)
    (d url : pyval) :
  _request E self (Some s) "POST" access_path (access_kwargs E s dev map) w
  = (inr resp, w1) ->
  _process_response E resp None = inr d ->
  download_url d = inr url ->
  calls (snd (get_map_data E self (Some s) dev map w))
  = (calls w1 ++ [Download (str url) (download_headers E)])%list.
Proof.
  intros H1 H2 H3. rewrite get_map_data_stages.
  rewrite bind_quiet_tail by (intros; apply quiet_lift).
  unfold map_blob. unfold bind at 1. rewrite H1.
  unfold bind at 1, lift at 1. rewrite H2.
  unfold bind at 1, lift at 1. rewrite H3.
  rewrite bind_quiet_tail by (intros; apply quiet_lift).
  apply download_calls.
Qed.

(** C5, as the code has it.  For every storage access response that
    carries a url field: when it also carries a cdnDomain that is a
    non-empty string and a dir that is a string, the download goes to
    https:// followed by the CDN domain, a slash and the directory; when it
    carries no cdnDomain, or an empty one, the download goes to the url
    field as it is. *)
Theorem C5_download_url_resolution :
  forall (T : Types) (E : Ext T) (self : KarcherHome T) (s : Session)
         (dev : Device) (map : Z) (w w1 : World) (resp : Response)
         (items : dict) (u : pyval),
    _request E self (Some s) "POST" access_path (access_kwargs E s dev map) w
    = (inr resp, w1) ->
    _process_response E resp None = inr (PDict items) ->
    dict_get items "url" = Some u ->
    (forall cdn dir : string,
        dict_get items "cdnDomain" = Some (PStr cdn) ->
        cdn <> "" ->
        dict_get items "dir" = Some (PStr dir) ->
        calls (snd (get_map_data E self (Some s) dev map w))
        = (calls w1 ++ [Download ("https://" ++ cdn ++ "/" ++ dir)
                          (download_headers E)])%list)
    /\ (dict_get items "cdnDomain" = None
        \/ dict_get items "cdnDomain" = Some (PStr "") ->
        calls (snd (get_map_data E self (Some s) dev map w))
        = (calls w1 ++ [Download (str u) (download_headers E)])%list).
Proof.
  intros T E self s dev map w w1 resp items u H1 H2 Hu. split.
  - intros cdn dir Hc Hne Hd.
    rewrite (map_download_call E self s dev map w w1 resp (PDict items)
               (PStr ("https://" ++ cdn ++ "/" ++ dir)) H1 H2); [reflexivity|].
    unfold download_url, getitem, contains, dict_mem.
    rewrite Hu, Hc, Hd. cbn [and_then eq_str str_add].
    destruct (String.eqb_spec cdn ""); [contradiction|]. cbn [negb].
    cbn [append]. now rewrite append_assoc.
  - intros Hc.
    rewrite (map_download_call E self s dev map w w1 resp (PDict items) u
               H1 H2); [reflexivity|].
    unfold download_url, getitem, contains, dict_mem. rewrite Hu.
    destruct Hc as [-> | ->]; reflexivity.
Qed.

Lemma C5_counterexample :
  let envelope :=
    PDict [("code", PInt 0); ("msg", PStr "ok");
           ("result", PDict [("cdnDomain", PStr "cdn.example");
                             ("dir", PStr "t/m/sn1/map_1")])] in
  exists r : Request,
    get_map_data (Demo.ext_with envelope) Demo.home
      (Some Demo.session) Demo.device 1 Demo.world
    = (inl (KeyError "url"), {| calls := [Signed r]; ticks := 2 |})
    /\ req_url r = "https://eu.example" ++ access_path.
Proof.
  intros envelope. eexists. split; vm_compute; reflexivity.
Qed.

Lemma C5_witness :
  let run := _request Demo.ext Demo.home (Some Demo.session) "POST"
               access_path (access_kwargs Demo.ext Demo.session Demo.device 1)
               Demo.world in
  let resp := {| status_code := 200; json := inr Demo.access_envelope;
                 content := "" |} in
  let items := [("url", PStr "https://store.example/blob?sig=1");
                ("cdnDomain", PStr "cdn.example");
                ("dir", PStr "t/m/sn1/map_1")] in
  (run = (inr resp, snd run)
   /\ _process_response Demo.ext resp None = inr (PDict items)
   /\ dict_get items "url" = Some (PStr "https://store.example/blob?sig=1")
   /\ dict_get items "cdnDomain" = Some (PStr "cdn.example")
   /\ "cdn.example" <> ""
   /\ dict_get items "dir" = Some (PStr "t/m/sn1/map_1"))
  /\ calls (snd (get_map_data Demo.ext Demo.home (Some Demo.session)
                   Demo.device 1 Demo.world))
     = (calls (snd run)
          ++ [Download "https://cdn.example/t/m/sn1/map_1"
                [("User-Agent", "Android_t")]])%list.
Proof.
  intros run resp items.
  assert (H1 : run = (inr resp, snd run)) by (vm_compute; reflexivity).
  assert (H2 : _process_response Demo.ext resp None = inr (PDict items))
    by reflexivity.
  split.
  - repeat split; try assumption. discriminate.
  - exact (proj1 (C5_download_url_resolution _ Demo.ext Demo.home Demo.session
                    Demo.device 1 Demo.world (snd run) resp items
                    (PStr "https://store.example/blob?sig=1") H1 H2 eq_refl)
             "cdn.example" "t/m/sn1/map_1" eq_refl ltac:(discriminate) eq_refl).
Defined.

(** C4, as the code has it.  Once the blob is downloaded and decrypted,
    channel 1 or 2 hands the data to the binary map decoder: the call
    returns the floor map the decoder produces, raises the error of the
    decoder when it fails, and never returns a JSON value.  Any other
    channel hands the data to the JSON parser: the call returns the value
    that is parsed, whatever its JSON type (a mapping only when the parser
    gives one), raises the error of the parser when it fails, and never
    returns a floor map.  The branch is chosen by the channel index
    alone. *)
Theorem C4_channel_chooses_the_decoder :
  forall (T : Types) (E : Ext T) (self : KarcherHome T) (sess : option Session)
         (dev : Device) (map : Z) (w w' : World) (data : string),
    map_blob E self sess dev map w = (inr data, w') ->
    let out := get_map_data E self sess dev map w in
    snd out = w'
    /\ (map = 1%Z \/ map = 2%Z ->
        (forall m : FloorMap T,
            Map_parse E data = inr m -> fst out = inr (Parsed T m))
        /\ (forall e : exn, Map_parse E data = inl e -> fst out = inl e)
        /\ (forall v : pyval, fst out <> inr (Loaded T v)))
    /\ (map <> 1%Z -> map <> 2%Z ->
        (forall v : pyval,
            json_loads E data = inr v -> fst out = inr (Loaded T v))
        /\ (forall e : exn, json_loads E data = inl e -> fst out = inl e)
        /\ (forall m : FloorMap T, fst out <> inr (Parsed T m))
        /\ (forall items : dict,
              fst out = inr (Loaded T (PDict items))
              <-> json_loads E data = inr (PDict items))).
Proof.
  intros T E self sess dev map w w' data Hb out. subst out.
  rewrite get_map_data_stages. unfold bind. rewrite Hb.
  unfold lift, decode_channel. cbn [fst snd].
  split; [reflexivity|]. split.
  - intros Hmap.
    assert (Hc : (Z.eqb map 1 || Z.eqb map 2)%bool = true)
      by (destruct Hmap as [-> | ->]; reflexivity).
    rewrite Hc. repeat split.
    + now intros m ->.
    + now intros e ->.
    + intros v. destruct (Map_parse E data); discriminate.
  - intros H1 H2.
    destruct (Z.eqb_spec map 1); [contradiction|].
    destruct (Z.eqb_spec map 2); [contradiction|]. cbn [orb].
    split; [now intros v ->|]. split; [now intros e ->|]. split.
    + intros m. destruct (json_loads E data); discriminate.
    + intros items. destruct (json_loads E data) as [e|v]; cbn [and_then].
      * split; discriminate.
      * split; intros H; injection H as ->; reflexivity.
Qed.

Lemma C4_witness :
  let run1 := map_blob Demo.ext Demo.home (Some Demo.session) Demo.device 1
                Demo.world in
  let run3 := map_blob Demo.ext Demo.home (Some Demo.session) Demo.device 3
                Demo.world in
  run1 = (inr "plain:blob", snd run1)
  /\ run3 = (inr "plain:blob", snd run3)
  /\ fst (get_map_data Demo.ext Demo.home (Some Demo.session) Demo.device 1
            Demo.world)
     = inr (Parsed Demo.types "plain:blob")
  /\ fst (get_map_data Demo.ext Demo.home (Some Demo.session) Demo.device 3
            Demo.world)
     = inr (Loaded Demo.types (PDict [("text", PStr "plain:blob")])).
Proof.
  intros run1 run3.
  assert (H1 : run1 = (inr "plain:blob", snd run1))
    by (vm_compute; reflexivity).
  assert (H3 : run3 = (inr "plain:blob", snd run3))
    by (vm_compute; reflexivity).
  split; [exact H1|]. split; [exact H3|]. split.
  - destruct (C4_channel_chooses_the_decoder _ Demo.ext Demo.home
                (Some Demo.session) Demo.device 1 Demo.world (snd run1)
                "plain:blob" H1) as (_ & Hmap & _).
    exact (proj1 (Hmap (or_introl eq_refl)) "plain:blob" eq_refl).
  - destruct (C4_channel_chooses_the_decoder _ Demo.ext Demo.home
                (Some Demo.session) Demo.device 3 Demo.world (snd run3)
                "plain:blob" H3) as (_ & _ & Hjson).
    exact (proj1 (Hjson ltac:(discriminate) ltac:(discriminate))
             (PDict [("text", PStr "plain:blob")]) eq_refl).
Defined.

Lemma C4_counterexample :
  fst (map_blob list_blob_ext Demo.home (Some Demo.session) Demo.device 3
         Demo.world)
  = inr "[1, 2]"
  /\ fst (get_map_data list_blob_ext Demo.home (Some Demo.session)
            Demo.device 3 Demo.world)
     = inr (Loaded Demo.types (PList [PInt 1; PInt 2]))
  /\ (forall items : dict, PList [PInt 1; PInt 2] <> PDict items).
Proof.
  split; [vm_compute; reflexivity|].
  split; [vm_compute; reflexivity|]. discriminate.
Qed.

Lemma grows_map_tail {T : Types} (E : Ext T) (dev : Device)
    (resp : Response) :
  grows (d <- lift (_process_response E resp None) ;;
         url <- lift (download_url d) ;;
         blob <- _download E url ;;
         lift (decrypt_map E (sn dev) (mac dev) (product_id dev) blob)).
Proof.
  apply grows_bind; [apply quiet_grows, quiet_lift | intros d].
  apply grows_bind; [apply quiet_grows, quiet_lift | intros url].
  apply grows_bind; [apply grows_download | intros blob].
  apply quiet_grows, quiet_lift.
Qed.

(** C9. get_map_data checks nothing about the session locally: for every
    session object, also one whose auth token or user id is empty, its
    first step is to send the signed POST for the storage URL; it never
    raises the access-denied exception before that.  (On None it fails on
    the attribute access, before any call, and not with access denied.) *)
Theorem C9_map_retrieval_has_no_local_check :
  forall (T : Types) (E : Ext T) (self : KarcherHome T) (dev : Device)
         (map : Z) (w : World),
    (forall s : Session,
        exists (r : Request) (rest : list NetCall),
          calls (snd (get_map_data E self (Some s) dev map w))
          = (calls w ++ Signed r :: rest)%list
          /\ req_method r = "POST"
          /\ req_url r = _base_url self ++ access_path
          /\ req_json r = Some (PDict (access_fields E s dev map))
          /\ dict_get (req_headers r) "sign"
             = Some (md5 E (auth_token s
                              ++ int_str (get_timestamp E (S (ticks w)))
                              ++ get_nonce E (ticks w)
                              ++ canonical_body (access_fields E s dev map))))
    /\ get_map_data E self None dev map w = (inl AttributeError, w).
Proof.
  intros T E self dev map w. split; [|reflexivity].
  intros s.
  destruct (request_post_run E self (Some s) "POST" access_path
              (access_kwargs E s dev map) w (access_fields E s dev map)
              (or_introl eq_refl) eq_refl)
    as (r & Hrun & Hm & Hu & _ & Hj & Hs & _).
  exists r.
  assert (Hcalls : exists rest,
             calls (snd (get_map_data E self (Some s) dev map w))
             = (calls w ++ Signed r :: rest)%list).
  { rewrite get_map_data_stages.
    rewrite bind_quiet_tail by (intros; apply quiet_lift).
    unfold map_blob. unfold bind at 1. rewrite Hrun.
    destruct (session_request E (calls w) r) as [e|resp].
    - exists []. reflexivity.
    - destruct (grows_map_tail E dev resp
                  {| calls := (calls w ++ [Signed r])%list;
                     ticks := S (S (ticks w)) |}) as [rest Hrest].
      exists rest. rewrite Hrest. cbn [calls].
      now rewrite <- app_assoc. }
  destruct Hcalls as [rest Hc]. exists rest. auto 10.
Qed.

(* ===================================================================== *)
(** ** The library functions on known values *)
(* ===================================================================== *)

Example md5_empty : MD5.md5 "" = "d41d8cd98f00b204e9800998ecf8427e".
Proof. vm_compute. reflexivity. Qed.

Example md5_abc : MD5.md5 "abc" = "900150983cd24fb0d6963f7d28e17f72".
Proof. vm_compute. reflexivity. Qed.

Example md5_fox :
  MD5.md5 "The quick brown fox jumps over the lazy dog"
  = "9e107d9d372bb6826bd81d3542a419d6".
Proof. vm_compute. reflexivity. Qed.

Example md5_two_blocks :
  MD5.md5 ("1234567890123456789012345678901234567890"
             ++ "1234567890123456789012345678901234567890")
  = "57edf4a22be3c955ac49da2e2107b67a".
Proof. vm_compute. reflexivity. Qed.

Example md5_e_acute :
  MD5.md5 (chr (ascii_of_nat 233)) = "66ddcd97cfdeabb2f6fb8a999b4bc76f".
Proof. vm_compute. reflexivity. Qed.

Example urlencode_mixed :
  urlencode [("a b", PStr "c&d~/"); ("e", PNone);
             ("f", PList [PInt 1; PStr "x"]); ("g", PBool true);
             ("h", PStr (chr (ascii_of_nat 233)))]
  = "a+b=c%26d~%2F&e=None&f=%5B1%2C+%27x%27%5D&g=True&h=%C3%A9".
Proof. reflexivity. Qed.

Example json_dumps_compact :
  json_dumps (PDict [("andIpad", PStr "r 1"); ("n", PList [PInt (-5); PNone])])
  = String "{" (String dquote ("andIpad" ++ String dquote (String ":"
      (String dquote ("r 1" ++ String dquote (String ","
        (String dquote ("n" ++ String dquote ":[-5,null]}")))))))).
Proof. reflexivity. Qed.

Example str_of_values :
  map str [PNone; PBool true; PInt 0; PInt (-12); PStr "x y";
           PList [PInt 1; PStr "a"]]
  = ["None"; "True"; "0"; "-12"; "x y"; "[1, 'a']"].
Proof. reflexivity. Qed.

(* ===================================================================== *)
(** ** Every request: headers, methods, bodies *)
(* ===================================================================== *)

Lemma signing_auth_eq (sess : option Session) :
  signing_auth sess = auth_of sess.
Proof.
  destruct sess as [s|]; [|reflexivity]. cbn.
  now destruct (String.eqb_spec (auth_token s) "") as [->|].
Qed.

(** [_request], whole: two readings, the branch on the method, one call. *)
Lemma request_run {T : Types} (E : Ext T) (self : KarcherHome T)
    (sess : option Session) (method url : string) (kwargs : Kwargs)
    (w : World) :
  _request E self sess method url kwargs w
  = match canonical E method kwargs with
    | inl e => (inl e, {| calls := calls w; ticks := S (S (ticks w)) |})
    | inr (data, passed) =>
        let r := built_request E self sess method url kwargs
                   (get_nonce E (ticks w))
                   (int_str (get_timestamp E (S (ticks w)))) data passed in
        (session_request E (calls w) r, after_request w r)
    end.
Proof.
  unfold _request, canonical, built_request, base_headers, signing_auth,
    after_request, bind, tick, lift, request.
  cbn [ticks calls].
  destruct (String.eqb method "GET").
  - destruct sess as [s|];
      [destruct (String.eqb (auth_token s) ""),
                (String.eqb (user_id s) "")|];
      cbn [negb];
      (destruct (and_then _ _) as [e|[data passed]]; reflexivity).
  - destruct (String.eqb method "POST" || String.eqb method "PUT")%bool.
    + destruct (match kw_json kwargs with
                | Some j => if truthy j then j else PDict []
                | None => PDict []
                end) as [|b|n|txt|l|items];
        try rewrite sign_loop;
        (destruct sess as [s|];
         [destruct (String.eqb (auth_token s) ""),
                   (String.eqb (user_id s) "")|];
         reflexivity).
    + destruct sess as [s|];
        [destruct (String.eqb (auth_token s) ""),
                  (String.eqb (user_id s) "")|];
        reflexivity.
Qed.

Lemma not_self_extended {A : Type} (l : list A) (x : A) :
  l <> (l ++ [x])%list.
Proof.
  intros H. rewrite <- (List.app_nil_r l) in H at 1.
  apply app_inv_head in H. discriminate.
Qed.

(** A run of [_request] that makes its call passed the branch on the
    method, and the call is the request built from its outcome. *)
Lemma sends_request {T : Types} (E : Ext T) (self : KarcherHome T)
    (sess : option Session) (method url : string) (kwargs : Kwargs)
    (w : World) (r : Request) :
  sends (_request E self sess method url kwargs) w r ->
  exists data passed,
    canonical E method kwargs = inr (data, passed)
    /\ r = built_request E self sess method url kwargs
             (get_nonce E (ticks w))
             (int_str (get_timestamp E (S (ticks w)))) data passed
    /\ _request E self sess method url kwargs w
       = (session_request E (calls w) r, after_request w r).
Proof.
  unfold sends. rewrite request_run.
  destruct (canonical E method kwargs) as [e|[data passed]]; cbn.
  - intros H. now apply not_self_extended in H.
  - intros H. apply app_inv_head in H. injection H as <-. eauto.
Qed.

Lemma managed_header_false (k : string) :
  managed_header k = false ->
  "User-Agent" <> k /\ "authorization" <> k /\ "id" <> k /\ "tenantId" <> k
  /\ "sign" <> k /\ "ts" <> k /\ "nonce" <> k.
Proof.
  unfold managed_header. cbn [existsb]. intros H.
  repeat (apply orb_false_elim in H as [?%String.eqb_neq H]).
  repeat split; congruence.
Qed.

(** Lookups in the headers before signing. *)
Lemma base_headers_lookup {T : Types} (E : Ext T) (sess : option Session)
    (kwargs : Kwargs) :
  let given := match kw_headers kwargs with Some h => h | None => [] end in
  let hs := base_headers E sess kwargs in
  dict_get hs "User-Agent" = Some ("Android_" ++ TENANT_ID E)
  /\ dict_get hs "tenantId" = Some (TENANT_ID E)
  /\ dict_get hs "authorization"
     = (if String.eqb (auth_of sess) "" then dict_get given "authorization"
        else Some (auth_of sess))
  /\ dict_get hs "id"
     = match sess with
       | Some s => if String.eqb (user_id s) "" then dict_get given "id"
                   else Some (user_id s)
       | None => dict_get given "id"
       end
  /\ forall k, managed_header k = false -> dict_get hs k = dict_get given k.
Proof.
  intros given hs. subst hs. unfold base_headers. fold given.
  destruct sess as [s|]; cbn [auth_of];
    [destruct (String.eqb (auth_token s) ""), (String.eqb (user_id s) "")|];
    cbn [negb String.eqb];
    (repeat split;
     [ rewrite !dict_get_set_other by discriminate; apply dict_get_set_same
     | apply dict_get_set_same
     | rewrite ?dict_get_set_other by discriminate;
       try apply dict_get_set_same; reflexivity
     | rewrite ?dict_get_set_other by discriminate;
       try apply dict_get_set_same; reflexivity
     | intros k Hk; apply managed_header_false in Hk;
       rewrite !dict_get_set_other by tauto; reflexivity ]).
Qed.

(** The data the branch on the method hands to the signature is
    [signed_data]. *)
Lemma canonical_signed_data {T : Types} (E : Ext T) (method : string)
    (kwargs : Kwargs) (data : string) (passed : Kwargs) :
  canonical E method kwargs = inr (data, passed) ->
  data = signed_data E method kwargs.
Proof.
  unfold canonical, signed_data, query_params, json_fields.
  destruct (String.eqb method "GET").
  - destruct (kw_params kwargs) as [p|]; cbn [and_then].
    + destruct (truthy p); cbn [and_then].
      * destruct p; cbn [and_then]; congruence.
      * congruence.
    + congruence.
  - destruct (String.eqb method "POST" || String.eqb method "PUT")%bool.
    + destruct (kw_json kwargs) as [j|].
      * destruct (truthy j); [destruct j|]; congruence.
      * congruence.
    + congruence.
Qed.

(** X1. Whatever headers the caller passes, the request that is sent has
    the User-Agent and tenantId of the client and the sign, ts and nonce
    of this call: timestamp and nonce are the ones that were signed, and
    the signature is over the auth token, the timestamp, the nonce and
    the data of the method, that is the URL-encoded query of a GET, the
    canonical body of a POST or PUT whose JSON is a mapping, and the empty
    string otherwise. *)
Theorem request_sets_its_own_headers :
  forall (T : Types) (E : Ext T) (self : KarcherHome T)
         (sess : option Session) (method url : string) (kwargs : Kwargs)
         (w : World) (r : Request),
    sends (_request E self sess method url kwargs) w r ->
    let nonce := get_nonce E (ticks w) in
    let ts := int_str (get_timestamp E (S (ticks w))) in
    req_method r = method
    /\ req_url r = _base_url self ++ url
    /\ dict_get (req_headers r) "User-Agent"
       = Some ("Android_" ++ TENANT_ID E)
    /\ dict_get (req_headers r) "tenantId" = Some (TENANT_ID E)
    /\ dict_get (req_headers r) "ts" = Some ts
    /\ dict_get (req_headers r) "nonce" = Some nonce
    /\ dict_get (req_headers r) "sign"
       = Some (md5 E (auth_of sess ++ ts ++ nonce
                      ++ signed_data E method kwargs)).
Proof.
  intros T E self sess method url kwargs w r Hs nonce ts.
  destruct (sends_request E self sess method url kwargs w r Hs)
    as (data & passed & Hc & -> & _).
  apply canonical_signed_data in Hc. subst data.
  destruct (base_headers_lookup E sess kwargs) as (Hua & Hte & _).
  unfold built_request. cbn [req_method req_url req_headers].
  split; [reflexivity|]. split; [reflexivity|].
  split; [now rewrite !dict_get_set_other by discriminate|].
  split; [now rewrite !dict_get_set_other by discriminate|].
  destruct (signature_headers (base_headers E sess kwargs)
              (md5 E (signing_auth sess ++ ts ++ nonce
                      ++ signed_data E method kwargs)) ts nonce)
    as (Hsg & Hts & Hno).
  split; [exact Hts|]. split; [exact Hno|].
  now rewrite <- signing_auth_eq.
Qed.

Lemma X1_witness :
  let kwargs := {| kw_headers := Some [("sign", "forged"); ("User-Agent", "x")];
                   kw_params := Some (PDict [("a", PStr "b")]);
                   kw_json := None |} in
  let passed := {| kw_headers := kw_headers kwargs;
                   kw_params := Some (PStr "a=b");
                   kw_json := None |} in
  let r := built_request Demo.ext Demo.home (Some Demo.session) "GET" "/x"
             kwargs "n0" "1700000001" "a=b" passed in
  sends (_request Demo.ext Demo.home (Some Demo.session) "GET" "/x" kwargs)
    Demo.world r
  /\ dict_get (req_headers r) "User-Agent" = Some "Android_t"
  /\ dict_get (req_headers r) "sign"
     = Some (md5 Demo.ext
               (auth_token Demo.session ++ "1700000001" ++ "n0" ++ "a=b")).
Proof.
  intros kwargs passed r.
  assert (Hs : sends (_request Demo.ext Demo.home (Some Demo.session) "GET"
                        "/x" kwargs) Demo.world r)
    by (vm_compute; reflexivity).
  split; [exact Hs|].
  destruct (request_sets_its_own_headers _ Demo.ext Demo.home
              (Some Demo.session) "GET" "/x" kwargs Demo.world r Hs)
    as (_ & _ & Hua & _ & _ & _ & Hsg).
  split; [exact Hua|]. exact Hsg.
Defined.

(** X2. The auth token goes out as the authorization header, and the user
    id as the id header, each exactly when it is not empty, and each
    independently of the other; otherwise the header is what the caller
    passed under that name, absent when the caller passed none. *)
Theorem request_credentials_headers :
  forall (T : Types) (E : Ext T) (self : KarcherHome T)
         (sess : option Session) (method url : string) (kwargs : Kwargs)
         (w : World) (r : Request),
    sends (_request E self sess method url kwargs) w r ->
    let given := match kw_headers kwargs with Some h => h | None => [] end in
    dict_get (req_headers r) "authorization"
    = (if String.eqb (auth_of sess) "" then dict_get given "authorization"
       else Some (auth_of sess))
    /\ dict_get (req_headers r) "id"
       = match sess with
         | Some s => if String.eqb (user_id s) "" then dict_get given "id"
                     else Some (user_id s)
         | None => dict_get given "id"
         end.
Proof.
  intros T E self sess method url kwargs w r Hs given.
  destruct (sends_request E self sess method url kwargs w r Hs)
    as (data & passed & _ & -> & _).
  destruct (base_headers_lookup E sess kwargs) as (_ & _ & Hau & Hid & _).
  unfold built_request. cbn [req_headers].
  rewrite !dict_get_set_other by discriminate. split; assumption.
Qed.

Lemma X2_witness :
  let sess := Some {| auth_token := "tok"; user_id := "";
                      country_code := "DE"; register_id := "r" |} in
  let r := built_request Demo.ext Demo.home sess "GET" "/x" no_kwargs
             "n0" "1700000001" ""
             {| kw_headers := None; kw_params := Some (PStr "");
                kw_json := None |} in
  sends (_request Demo.ext Demo.home sess "GET" "/x" no_kwargs) Demo.world r
  /\ dict_get (req_headers r) "authorization" = Some "tok"
  /\ dict_get (req_headers r) "id" = None.
Proof.
  intros sess r.
  assert (Hs : sends (_request Demo.ext Demo.home sess "GET" "/x" no_kwargs)
                 Demo.world r) by (vm_compute; reflexivity).
  split; [exact Hs|].
  exact (request_credentials_headers _ Demo.ext Demo.home sess "GET" "/x"
           no_kwargs Demo.world r Hs).
Defined.

(** X3. Every other header the caller passes reaches the transport
    unchanged, and [_request] adds no header beyond the seven it sets. *)
Theorem request_keeps_other_headers :
  forall (T : Types) (E : Ext T) (self : KarcherHome T)
         (sess : option Session) (method url : string) (kwargs : Kwargs)
         (w : World) (r : Request) (k : string),
    sends (_request E self sess method url kwargs) w r ->
    managed_header k = false ->
    dict_get (req_headers r) k
    = dict_get (match kw_headers kwargs with Some h => h | None => [] end) k.
Proof.
  intros T E self sess method url kwargs w r k Hs Hk.
  destruct (sends_request E self sess method url kwargs w r Hs)
    as (data & passed & _ & -> & _).
  destruct (base_headers_lookup E sess kwargs) as (_ & _ & _ & _ & Hother).
  unfold built_request. cbn [req_headers].
  pose proof (managed_header_false k Hk) as Hne.
  rewrite !dict_get_set_other by tauto. now apply Hother.
Qed.

Lemma X3_witness :
  let kwargs := {| kw_headers := Some [("Accept", "text/plain")];
                   kw_params := None; kw_json := None |} in
  let r := built_request Demo.ext Demo.home None "DELETE" "/x" kwargs
             "n0" "1700000001" "" kwargs in
  sends (_request Demo.ext Demo.home None "DELETE" "/x" kwargs) Demo.world r
  /\ managed_header "Accept" = false
  /\ dict_get (req_headers r) "Accept" = Some "text/plain"
  /\ dict_get (req_headers r) "Cookie" = None.
Proof.
  intros kwargs r.
  assert (Hs : sends (_request Demo.ext Demo.home None "DELETE" "/x" kwargs)
                 Demo.world r) by (vm_compute; reflexivity).
  split; [exact Hs|]. split; [reflexivity|]. split.
  - exact (request_keeps_other_headers _ Demo.ext Demo.home None "DELETE"
             "/x" kwargs Demo.world r "Accept" Hs eq_refl).
  - exact (request_keeps_other_headers _ Demo.ext Demo.home None "DELETE"
             "/x" kwargs Demo.world r "Cookie" Hs eq_refl).
Defined.

(** X4. A GET whose params are a number other than zero, True, or a list
    that is not empty and starts with a value of this model (None, a bool,
    a number, a str, a list or a dict, hence not a pair) is refused by
    the URL encoder: [_request] raises TypeError after it has read nonce
    and timestamp, and nothing is sent.  Sequences of pairs, which the
    encoder accepts, are not values of this model and are not covered. *)
Theorem get_with_unencodable_params_is_not_sent :
  forall (T : Types) (E : Ext T) (self : KarcherHome T)
         (sess : option Session) (url : string) (kwargs : Kwargs)
         (w : World) (p : pyval),
    kw_params kwargs = Some p ->
    (exists n : Z, p = PInt n /\ n <> 0%Z)
    \/ p = PBool true
    \/ (exists (x : pyval) (l : list pyval), p = PList (x :: l)) ->
    _request E self sess "GET" url kwargs w
    = (inl TypeError, {| calls := calls w; ticks := S (S (ticks w)) |}).
Proof.
  intros T E self sess url kwargs w p Hp Hcase.
  rewrite request_run. unfold canonical. cbn [String.eqb Ascii.eqb Bool.eqb].
  rewrite Hp.
  destruct Hcase as [(n & -> & Hn) | [-> | (x & l & ->)]]; cbn [truthy].
  - destruct (Z.eqb_spec n 0); [contradiction|]. reflexivity.
  - reflexivity.
  - reflexivity.
Qed.

Lemma X4_witness :
  let kwargs := {| kw_headers := None;
                   kw_params := Some (PList [PStr "a"; PStr "b"]);
                   kw_json := None |} in
  kw_params kwargs = Some (PList [PStr "a"; PStr "b"])
  /\ _request Demo.ext Demo.home None "GET" "/x" kwargs Demo.world
     = (inl TypeError, {| calls := []; ticks := 2 |}).
Proof.
  intros kwargs. split; [reflexivity|].
  apply (get_with_unencodable_params_is_not_sent _ Demo.ext Demo.home None
           "/x" kwargs Demo.world (PList [PStr "a"; PStr "b"]));
    [reflexivity|].
  right. right. exists (PStr "a"), [PStr "b"]. reflexivity.
Defined.

(** X5. For a method other than GET, POST and PUT (the comparison is
    case-sensitive) nothing but auth token, timestamp and nonce is
    signed, and params and JSON body are passed on as they are. *)
Theorem other_methods_sign_no_body :
  forall (T : Types) (E : Ext T) (self : KarcherHome T)
         (sess : option Session) (method url : string) (kwargs : Kwargs)
         (w : World),
    method <> "GET" -> method <> "POST" -> method <> "PUT" ->
    let nonce := get_nonce E (ticks w) in
    let ts := int_str (get_timestamp E (S (ticks w))) in
    exists r : Request,
      _request E self sess method url kwargs w
      = (session_request E (calls w) r, after_request w r)
      /\ req_params r = kw_params kwargs
      /\ req_json r = kw_json kwargs
      /\ dict_get (req_headers r) "sign"
         = Some (md5 E (auth_of sess ++ ts ++ nonce)).
Proof.
  intros T E self sess method url kwargs w Hg Hp Hu nonce ts.
  rewrite request_run. unfold canonical.
  apply String.eqb_neq in Hg, Hp, Hu. rewrite Hg, Hp, Hu. cbn [orb].
  eexists. split; [reflexivity|].
  unfold built_request. cbn [req_params req_json req_headers].
  split; [reflexivity|]. split; [reflexivity|].
  rewrite !dict_get_set_other by discriminate. rewrite dict_get_set_same.
  now rewrite signing_auth_eq, append_nil_r.
Qed.

Lemma X5_witness :
  let kwargs := {| kw_headers := None;
                   kw_params := Some (PDict [("a", PStr "b")]);
                   kw_json := None |} in
  ("get" <> "GET" /\ "get" <> "POST" /\ "get" <> "PUT")
  /\ exists r : Request,
       calls (snd (_request Demo.ext Demo.home None "get" "/x" kwargs
                     Demo.world)) = [Signed r]
       /\ req_params r = Some (PDict [("a", PStr "b")])
       /\ dict_get (req_headers r) "sign"
          = Some (MD5.md5 ("" ++ "1700000001" ++ "n0")).
Proof.
  intros kwargs. split; [repeat split; discriminate|].
  destruct (other_methods_sign_no_body _ Demo.ext Demo.home None "get" "/x"
              kwargs Demo.world ltac:(discriminate) ltac:(discriminate)
              ltac:(discriminate)) as (r & Hrun & Hp & _ & Hs).
  exists r. rewrite Hrun. vm_compute in Hs |- *.
  split; [reflexivity|]. split; [exact Hp | exact Hs].
Defined.

(** X6. A POST or PUT whose JSON body is not a non-empty mapping has
    nothing of it signed: a missing or falsy body (None, the empty dict or
    list, 0, the empty str) is sent as the empty mapping, any other body
    is sent as it is, and in both cases the signature is over auth token,
    timestamp and nonce alone. *)
Theorem post_without_mapping_signs_no_body :
  forall (T : Types) (E : Ext T) (self : KarcherHome T)
         (sess : option Session) (method url : string) (kwargs : Kwargs)
         (w : World),
    method = "POST" \/ method = "PUT" ->
    (forall d, kw_json kwargs <> Some (PDict d)) ->
    let nonce := get_nonce E (ticks w) in
    let ts := int_str (get_timestamp E (S (ticks w))) in
    exists r : Request,
      _request E self sess method url kwargs w
      = (session_request E (calls w) r, after_request w r)
      /\ req_json r
         = match kw_json kwargs with
           | Some j => if truthy j then Some j else Some (PDict [])
           | None => Some (PDict [])
           end
      /\ dict_get (req_headers r) "sign"
         = Some (md5 E (auth_of sess ++ ts ++ nonce)).
Proof.
  intros T E self sess method url kwargs w Hm Hd nonce ts.
  rewrite request_run. unfold canonical.
  assert (Hmeth : String.eqb method "GET" = false
                  /\ (String.eqb method "POST"
                      || String.eqb method "PUT")%bool = true).
  { destruct Hm as [-> | ->]; split; reflexivity. }
  destruct Hmeth as [-> ->].
  assert (Hsign : forall passed,
             dict_get (req_headers
                         (built_request E self sess method url kwargs nonce ts
                            "" passed)) "sign"
             = Some (md5 E (auth_of sess ++ ts ++ nonce))).
  { intros passed. unfold built_request. cbn [req_headers].
    rewrite !dict_get_set_other by discriminate. rewrite dict_get_set_same.
    now rewrite signing_auth_eq, append_nil_r. }
  destruct (kw_json kwargs) as [j|] eqn:Hj.
  - destruct (truthy j) eqn:Ht.
    + destruct j; try (eexists; split; [reflexivity|];
                       split; [exact Hj | apply Hsign]).
      now elim (Hd items).
    + eexists. split; [reflexivity|]. split; [reflexivity | apply Hsign].
  - eexists. split; [reflexivity|]. split; [reflexivity | apply Hsign].
Qed.

Lemma X6_witness :
  let kwargs := {| kw_headers := None; kw_params := None;
                   kw_json := Some (PList [PInt 1; PInt 2]) |} in
  ("PUT" = "POST" \/ "PUT" = "PUT")
  /\ exists r : Request,
       calls (snd (_request Demo.ext Demo.home None "PUT" "/x" kwargs
                     Demo.world)) = [Signed r]
       /\ req_json r = Some (PList [PInt 1; PInt 2])
       /\ dict_get (req_headers r) "sign"
          = Some (MD5.md5 ("" ++ "1700000001" ++ "n0")).
Proof.
  intros kwargs. split; [right; reflexivity|].
  destruct (post_without_mapping_signs_no_body _ Demo.ext Demo.home None
              "PUT" "/x" kwargs Demo.world (or_intror eq_refl)
              ltac:(discriminate)) as (r & Hrun & Hj & Hs).
  exists r. rewrite Hrun. vm_compute in Hs, Hj |- *.
  split; [reflexivity|]. split; [exact Hj | exact Hs].
Defined.

(* ===================================================================== *)
(** ** Every response: malformed, refused, empty, decoded *)
(* ===================================================================== *)

(** Past the check of the code, [_process_response] unwraps the result. *)
Lemma process_accepted {T : Types} (E : Ext T) (resp : Response)
    (prop : option string) (data : dict) :
  status_code resp = 200%Z ->
  json resp = inr (PDict data) ->
  accepted E data ->
  _process_response E resp prop = unwrap E data prop.
Proof.
  intros Hst Hjs (code & Hcode & Hok).
  unfold _process_response, unwrap. rewrite Hst, Hjs.
  cbn [Z.eqb Pos.eqb negb and_then getitem contains]. rewrite Hcode.
  cbn [and_then].
  destruct Hok as [Hz | (msg & Hz & Hmsg & Hh)]; rewrite Hz;
    cbn [negb and_then]; rewrite ?Hcode; cbn [and_then];
    rewrite ?Hmsg; cbn [and_then]; rewrite ?Hh; cbn [and_then];
    unfold dict_mem;
  destruct (dict_get data "result") as [[| | |s| |]|]; reflexivity.
Qed.

(** X7. A response that is not an envelope fails before anything is
    decoded, in this order: a status other than 200 is an HTTP error
    whatever the body is; a body that is not JSON raises the error of the
    parser; a JSON body that is not a mapping raises TypeError; a mapping
    without code raises KeyError, even when it has a result. *)
Theorem malformed_responses_fail_in_order :
  forall (T : Types) (E : Ext T) (resp : Response) (prop : option string),
    (status_code resp <> 200%Z ->
     _process_response E resp prop
     = inl (KarcherHomeException (-1)
              ("HTTP error: " ++ int_str (status_code resp))))
    /\ (status_code resp = 200%Z ->
        (forall e, json resp = inl e -> _process_response E resp prop = inl e)
        /\ (forall v, json resp = inr v -> (forall d, v <> PDict d) ->
            _process_response E resp prop = inl TypeError)
        /\ (forall d, json resp = inr (PDict d) -> dict_get d "code" = None ->
            _process_response E resp prop = inl (KeyError "code"))).
Proof.
  intros T E resp prop. unfold _process_response. split.
  - intros H. apply Z.eqb_neq in H. now rewrite H.
  - intros ->. cbn [Z.eqb Pos.eqb negb]. repeat split.
    + now intros e ->.
    + intros v -> Hv. destruct v; try reflexivity. now elim (Hv items).
    + intros d -> Hc. cbn. now rewrite Hc.
Qed.

Lemma X7_witness :
  let resp := {| status_code := 404; json := inr Demo.access_envelope;
                 content := "" |} in
  let bare := {| status_code := 200;
                 json := inr (PDict [("result", PDict [])]);
                 content := "" |} in
  status_code resp <> 200%Z
  /\ _process_response Demo.ext resp None
     = inl (KarcherHomeException (-1) "HTTP error: 404")
  /\ _process_response Demo.ext bare None = inl (KeyError "code").
Proof.
  intros resp bare.
  assert (H : status_code resp <> 200%Z) by discriminate.
  split; [exact H|]. split.
  - exact (proj1 (malformed_responses_fail_in_order _ Demo.ext resp None) H).
  - exact (proj2 (proj2 (proj2 (malformed_responses_fail_in_order _ Demo.ext
                                  bare None) eq_refl))
             [("result", PDict [])] eq_refl eq_refl).
Defined.

(** X8. An envelope with a non-zero code is handed to the error-code
    handler with its code and its message, and what the handler raises is
    raised; an envelope that has no msg raises KeyError for msg instead,
    and the handler is not reached. *)
Theorem refused_envelope_raises :
  forall (T : Types) (E : Ext T) (resp : Response) (prop : option string)
         (data : dict) (code : pyval),
    status_code resp = 200%Z ->
    json resp = inr (PDict data) ->
    dict_get data "code" = Some code ->
    eq_int code 0 = false ->
    (dict_get data "msg" = None ->
     _process_response E resp prop = inl (KeyError "msg"))
    /\ (forall (msg : pyval) (e : exn),
          dict_get data "msg" = Some msg ->
          handle_error_code E code msg = Some e ->
          _process_response E resp prop = inl e).
Proof.
  intros T E resp prop data code Hst Hjs Hcode Hnz.
  unfold _process_response. rewrite Hst, Hjs. cbn. rewrite Hcode. cbn.
  rewrite Hnz. cbn. split.
  - now intros ->.
  - intros msg e -> Hh. cbn. now rewrite Hh.
Qed.

Lemma X8_witness :
  let data := [("code", PInt 1001); ("result", PDict [])] in
  let resp := {| status_code := 200; json := inr (PDict data);
                 content := "" |} in
  (status_code resp = 200%Z /\ json resp = inr (PDict data)
   /\ dict_get data "code" = Some (PInt 1001)
   /\ eq_int (PInt 1001) 0 = false /\ dict_get data "msg" = None)
  /\ _process_response Demo.ext resp None = inl (KeyError "msg").
Proof.
  intros data resp. split; [repeat split|].
  exact (proj1 (refused_envelope_raises _ Demo.ext resp None data (PInt 1001)
                  eq_refl eq_refl eq_refl eq_refl) eq_refl).
Defined.

(** X9. An accepted envelope without a result decodes to None, also when
    the caller asked for a named field: nothing is decrypted. *)
Theorem accepted_without_result_is_None :
  forall (T : Types) (E : Ext T) (resp : Response) (prop : option string)
         (data : dict),
    status_code resp = 200%Z ->
    json resp = inr (PDict data) ->
    accepted E data ->
    dict_get data "result" = None ->
    _process_response E resp prop = inr PNone.
Proof.
  intros T E resp prop data Hst Hjs Hacc Hres.
  rewrite (process_accepted E resp prop data Hst Hjs Hacc).
  unfold unwrap. now rewrite Hres.
Qed.

Lemma X9_witness :
  let data := [("code", PInt 0); ("msg", PStr "ok")] in
  let resp := {| status_code := 200; json := inr (PDict data);
                 content := "" |} in
  (status_code resp = 200%Z /\ json resp = inr (PDict data)
   /\ accepted Demo.ext data /\ dict_get data "result" = None)
  /\ _process_response Demo.ext resp (Some "domain") = inr PNone.
Proof.
  intros data resp.
  assert (Hacc : accepted Demo.ext data).
  { exists (PInt 0). split; [reflexivity | left; reflexivity]. }
  split; [repeat split; exact Hacc|].
  exact (accepted_without_result_is_None _ Demo.ext resp (Some "domain") data
           eq_refl eq_refl Hacc eq_refl).
Defined.

(** X10. Without a named field, a value comes back only from a response
    with status 200 whose body is a mapping that passed the check of its
    code; the value is None when the mapping has no result and its result
    otherwise, and it is never a str. *)
Theorem decoded_value_is_the_result :
  forall (T : Types) (E : Ext T) (resp : Response) (v : pyval),
    _process_response E resp None = inr v ->
    status_code resp = 200%Z
    /\ exists data : dict,
         json resp = inr (PDict data)
         /\ accepted E data
         /\ ((dict_get data "result" = None /\ v = PNone)
             \/ (dict_get data "result" = Some v /\ forall s, v <> PStr s)).
Proof.
  intros T E resp v. unfold _process_response.
  destruct (Z.eqb_spec (status_code resp) 200) as [Hst|]; [|discriminate].
  cbn [negb]. destruct (json resp) as [e|body]; [discriminate|].
  destruct body as [| | | | |data]; try discriminate.
  cbn [and_then getitem contains].
  destruct (dict_get data "code") as [code|] eqn:Hcode; [|discriminate].
  cbn [and_then].
  intros H. split; [exact Hst|]. exists data. split; [reflexivity|].
  assert (Hacc : accepted E data
                 /\ (has_result <~ inr (dict_mem data "result") ;;
                     if negb has_result then inr PNone
                     else result0 <~ getitem (PDict data) "result" ;;
                          match result0 with
                          | PStr s =>
                              inl (KarcherHomeException (-2)
                                     ("Invalid response: " ++ s))
                          | _ => inr result0
                          end) = inr v).
  { destruct (eq_int code 0) eqn:Hz; cbn [negb and_then] in H.
    - split; [exists code; auto | exact H].
    - destruct (dict_get data "msg") as [msg|] eqn:Hmsg; [|discriminate].
      cbn [and_then] in H.
      destruct (handle_error_code E code msg) eqn:Hh; [discriminate|].
      split; [|exact H].
      exists code. split; [exact Hcode|]. right. exists msg. auto. }
  destruct Hacc as [Hacc Hv]. split; [exact Hacc|].
  cbn [and_then getitem] in Hv. unfold dict_mem in Hv.
  destruct (dict_get data "result") as [res|]; cbn in Hv.
  - right. destruct res; try discriminate; injection Hv as <-;
      (split; [reflexivity | discriminate]).
  - left. injection Hv as <-. auto.
Qed.

Lemma X10_witness :
  let resp := {| status_code := 200; json := inr Demo.access_envelope;
                 content := "" |} in
  let v := PDict [("url", PStr "https://store.example/blob?sig=1");
                  ("cdnDomain", PStr "cdn.example");
                  ("dir", PStr "t/m/sn1/map_1")] in
  _process_response Demo.ext resp None = inr v
  /\ status_code resp = 200%Z
  /\ accepted Demo.ext [("code", PInt 0); ("msg", PStr "ok"); ("result", v)].
Proof.
  intros resp v.
  assert (H : _process_response Demo.ext resp None = inr v) by reflexivity.
  split; [exact H|].
  destruct (decoded_value_is_the_result _ Demo.ext resp v H)
    as (Hst & data & Hjs & Hacc & _).
  split; [exact Hst|]. injection Hjs as <-. exact Hacc.
Defined.

(** X11. When a named field is asked of an accepted envelope, a result
    that is a mapping with that field has the field decrypted and the
    plain text parsed, the errors of either step going to the caller; a
    result that is neither a mapping nor a str (a list, null, a number)
    raises TypeError. *)
Theorem named_field_is_decrypted_then_parsed :
  forall (T : Types) (E : Ext T) (resp : Response) (data : dict)
         (p : string) (res : pyval),
    status_code resp = 200%Z ->
    json resp = inr (PDict data) ->
    accepted E data ->
    dict_get data "result" = Some res ->
    (forall (fields : dict) (c : pyval),
        res = PDict fields -> dict_get fields p = Some c ->
        _process_response E resp (Some p)
        = (plain <~ decrypt E c ;; json_loads E plain))
    /\ ((forall d, res <> PDict d) -> (forall s, res <> PStr s) ->
        _process_response E resp (Some p) = inl TypeError).
Proof.
  intros T E resp data p res Hst Hjs Hacc Hres.
  rewrite (process_accepted E resp (Some p) data Hst Hjs Hacc).
  unfold unwrap. rewrite Hres. split.
  - intros fields c -> Hc. cbn. now rewrite Hc.
  - intros Hd Hs. destruct res; try reflexivity;
      [now elim (Hs s) | now elim (Hd items)].
Qed.

Lemma X11_witness :
  let data := [("code", PInt 0);
               ("result", PDict [("domain", PStr "cipher")])] in
  let resp := {| status_code := 200; json := inr (PDict data);
                 content := "" |} in
  (status_code resp = 200%Z /\ json resp = inr (PDict data)
   /\ accepted Demo.ext data
   /\ dict_get data "result" = Some (PDict [("domain", PStr "cipher")]))
  /\ _process_response Demo.ext resp (Some "domain")
     = inr (PDict [("text", PStr "cipher")]).
Proof.
  intros data resp.
  assert (Hacc : accepted Demo.ext data).
  { exists (PInt 0). split; [reflexivity | left; reflexivity]. }
  split; [repeat split; exact Hacc|].
  exact (proj1 (named_field_is_decrypted_then_parsed _ Demo.ext resp data
                  "domain" (PDict [("domain", PStr "cipher")])
                  eq_refl eq_refl Hacc eq_refl)
           [("domain", PStr "cipher")] (PStr "cipher") eq_refl eq_refl).
Defined.

(* ===================================================================== *)
(** ** The operations, call by call *)
(* ===================================================================== *)

(** An operation that starts with a request: once the branch on the method
    is passed, the request is sent and the rest runs on the answer. *)
Lemma bind_request {T : Types} {A : Type} (E : Ext T) (self : KarcherHome T)
    (sess : option Session) (method url : string) (kwargs : Kwargs)
    (k : Response -> M A) (w : World) (data : string) (passed : Kwargs) :
  canonical E method kwargs = inr (data, passed) ->
  let r := built_request E self sess method url kwargs
             (get_nonce E (ticks w))
             (int_str (get_timestamp E (S (ticks w)))) data passed in
  bind (_request E self sess method url kwargs) k w
  = match session_request E (calls w) r with
    | inl e => (inl e, after_request w r)
    | inr resp => k resp (after_request w r)
    end.
Proof.
  intros Hc r. unfold bind. rewrite request_run, Hc. cbv zeta. fold r.
  destruct (session_request E (calls w) r); reflexivity.
Qed.

(** Lookups in the headers of the request that is built. *)
Lemma built_request_lookup {T : Types} (E : Ext T) (self : KarcherHome T)
    (sess : option Session) (method url : string) (kwargs : Kwargs)
    (nonce ts data : string) (passed : Kwargs) :
  let r := built_request E self sess method url kwargs nonce ts data passed in
  let given := match kw_headers kwargs with Some h => h | None => [] end in
  dict_get (req_headers r) "sign"
  = Some (md5 E (auth_of sess ++ ts ++ nonce ++ data))
  /\ dict_get (req_headers r) "authorization"
     = (if String.eqb (auth_of sess) "" then dict_get given "authorization"
        else Some (auth_of sess))
  /\ dict_get (req_headers r) "id"
     = match sess with
       | Some s => if String.eqb (user_id s) "" then dict_get given "id"
                   else Some (user_id s)
       | None => dict_get given "id"
       end.
Proof.
  intros r given. subst r. unfold built_request. cbn [req_headers].
  destruct (base_headers_lookup E sess kwargs) as (_ & _ & Hau & Hid & _).
  split; [|split].
  - rewrite !dict_get_set_other by discriminate. rewrite dict_get_set_same.
    now rewrite signing_auth_eq.
  - rewrite !dict_get_set_other by discriminate. exact Hau.
  - rewrite !dict_get_set_other by discriminate. exact Hid.
Qed.

Lemma authorized_lookup (s : Session) :
  authorized (Some s) ->
  String.eqb (auth_token s) "" = false /\ String.eqb (user_id s) "" = false.
Proof.
  intros (s' & Hs & Ha & Hu). injection Hs as <-.
  split; now apply String.eqb_neq.
Qed.

(** X12. [get_urls] makes exactly one call: a signed GET to the domains
    list, without authorization or id header, whose signature covers the
    three query parameters in the order tenantId, productModeCode,
    version; the domains are built from the decrypted domain field of
    the answer. *)
Theorem get_urls_is_one_unauthenticated_get :
  forall (T : Types) (E : Ext T) (self : KarcherHome T) (w : World),
    let query := [("tenantId", PStr (TENANT_ID E));
                  ("productModeCode", PROJECT_TYPE E);
                  ("version", PROTOCOL_VERSION E)] in
    exists r : Request,
      get_urls E self w
      = (resp <~ session_request E (calls w) r ;;
         d <~ _process_response E resp (Some "domain") ;;
         kwargs_of (new_Domains E) d,
         after_request w r)
      /\ req_method r = "GET"
      /\ req_url r = _base_url self ++ "/network-service/domains/list"
      /\ req_params r = Some (PStr (urlencode query))
      /\ dict_get (req_headers r) "sign"
         = Some (md5 E ("" ++ int_str (get_timestamp E (S (ticks w)))
                           ++ get_nonce E (ticks w) ++ urlencode query))
      /\ dict_get (req_headers r) "authorization" = None
      /\ dict_get (req_headers r) "id" = None.
Proof.
  intros T E self w query. unfold get_urls.
  erewrite bind_request by reflexivity.
  match goal with |- context [after_request w ?r0] => exists r0 end.
  split.
  - destruct (session_request E (calls w) _) as [e|resp]; [reflexivity|].
    unfold bind, lift. cbn [and_then].
    destruct (_process_response E resp (Some "domain")); reflexivity.
  - split; [reflexivity|]. split; [reflexivity|]. split; [reflexivity|].
    apply built_request_lookup.
Qed.

(** X13. The constructor sends its discovery request to the URL of the
    region; when discovery succeeds the object gets the discovered API
    URL unless that is empty (then it keeps the URL of the region), the
    discovered MQTT URL unless that is empty (then none), and the English
    language; when discovery fails, so does the constructor. *)
Theorem init_adopts_discovered_urls :
  forall (T : Types) (E : Ext T) (region : Region T) (w : World),
    let self0 := Build_KarcherHome T (REGION_URLS E region) None
                   (Language_EN E) in
    (exists r : Request,
        calls (snd (__init__ E region w)) = (calls w ++ [Signed r])%list
        /\ req_url r
           = REGION_URLS E region ++ "/network-service/domains/list")
    /\ (forall e w', get_urls E self0 w = (inl e, w') ->
        __init__ E region w = (inl e, w'))
    /\ (forall d w', get_urls E self0 w = (inr d, w') ->
        exists self : KarcherHome T,
          __init__ E region w = (inr self, w')
          /\ _base_url self
             = (if String.eqb (app_api d) "" then REGION_URLS E region
                else app_api d)
          /\ _mqtt_url self
             = (if String.eqb (mqtt d) "" then None else Some (mqtt d))
          /\ _language self = Language_EN E).
Proof.
  intros T E region w self0. unfold __init__. fold self0. repeat split.
  - rewrite bind_quiet_tail by (intros d; apply quiet_ret).
    destruct (get_urls_signs_its_query E self0 w) as (r & Hc & _ & Hu & _).
    exists r. split; [exact Hc | exact Hu].
  - intros e w' H. unfold bind. now rewrite H.
  - intros d w' H. unfold bind, ret. rewrite H.
    eexists. split; [reflexivity|].
    destruct (String.eqb (app_api d) ""), (String.eqb (mqtt d) "");
      repeat split.
Qed.

Lemma X13_witness :
  let envelope := PDict [("code", PInt 0);
                         ("result", PDict [("domain", PStr "cipher")])] in
  let E := Demo.ext_with envelope in
  let self0 := Build_KarcherHome Demo.types "https://eu.example" None tt in
  get_urls E self0 Demo.world
  = (inr {| app_api := ""; mqtt := "" |}, snd (get_urls E self0 Demo.world))
  /\ exists self : KarcherHome Demo.types,
       fst (__init__ E tt Demo.world) = inr self
       /\ _base_url self = "https://eu.example"
       /\ _mqtt_url self = None.
Proof.
  intros envelope E self0.
  assert (H : get_urls E self0 Demo.world
              = (inr {| app_api := ""; mqtt := "" |},
                 snd (get_urls E self0 Demo.world)))
    by (vm_compute; reflexivity).
  split; [exact H|].
  destruct (proj2 (proj2 (init_adopts_discovered_urls _ E tt Demo.world))
              _ _ H) as (self & Hrun & Hb & Hm & _).
  exists self. rewrite Hrun. repeat split; assumption.
Defined.

(** [login], whole: the registration id, one request, the session. *)
Lemma login_run {T : Types} (E : Ext T) (self : KarcherHome T)
    (username password : string) (register_id : option string) (w : World) :
  let used := used_register_id E register_id w in
  let w1 := login_world register_id w in
  let fields := login_fields E self username password used in
  let kwargs := {| kw_headers := None; kw_params := None;
                   kw_json := Some (PDict fields) |} in
  let r := built_request E self None "POST" "/user-center/auth/login" kwargs
             (get_nonce E (ticks w1))
             (int_str (get_timestamp E (S (ticks w1))))
             (canonical_body fields) kwargs in
  login E self username password register_id w
  = (resp <~ session_request E (calls w1) r ;;
     d <~ _process_response E resp None ;;
     s0 <~ kwargs_of (new_Session E) d ;;
     inr (set_register_id s0 used),
     after_request w1 r).
Proof.
  intros used w1 fields kwargs r. unfold login.
  set (first := match register_id with
                | Some x => if String.eqb x "" then _ else _
                | None => _
                end).
  assert (Hfirst : first w = (inr used, w1)).
  { subst first used w1.
    unfold used_register_id, login_world, ticked, bind, tick, ret.
    destruct register_id as [x|]; [destruct (String.eqb x "")|];
      reflexivity. }
  unfold bind at 1. rewrite Hfirst.
  erewrite bind_request by reflexivity.
  match goal with
  | |- context [session_request E (calls w1) ?r0] => change r0 with r
  end.
  destruct (session_request E (calls w1) r) as [e|resp]; [reflexivity|].
  unfold bind, lift, ret. cbn [and_then].
  destruct (_process_response E resp None) as [e|d]; [reflexivity|].
  cbn [and_then]. destruct (kwargs_of (new_Session E) d); reflexivity.
Qed.

Lemma login_world_calls (rid : option string) (w : World) :
  calls (login_world rid w) = calls w.
Proof.
  unfold login_world. destruct rid as [x|]; [destruct (String.eqb x "")|];
    reflexivity.
Qed.

(** X14. Login is sent without authorization and id header, and when the
    user name is an email address it is encrypted as it is, without the
    86- prefix. *)
Theorem login_with_email_is_not_prefixed :
  forall (T : Types) (E : Ext T) (self : KarcherHome T)
         (username password : string) (rid : option string) (w : World),
    is_email E username = true ->
    exists (r : Request) (body : dict),
      calls (snd (login E self username password rid w))
      = (calls w ++ [Signed r])%list
      /\ req_json r = Some (PDict body)
      /\ dict_get body "username" = Some (PStr (encrypt E username))
      /\ dict_get body "password" = Some (PStr (encrypt E password))
      /\ dict_get (req_headers r) "authorization" = None
      /\ dict_get (req_headers r) "id" = None.
Proof.
  intros T E self username password rid w Hmail.
  rewrite login_run. cbn [snd after_request calls].
  rewrite login_world_calls.
  eexists. eexists. split; [reflexivity|]. split; [reflexivity|].
  split; [cbn; unfold login_name; now rewrite Hmail|].
  split; [reflexivity|].
  apply built_request_lookup.
Qed.

Lemma X14_witness :
  is_email Demo.ext "a@b.example" = true
  /\ exists (r : Request) (body : dict),
       calls (snd (login Demo.ext Demo.home "a@b.example" "secret" None
                     Demo.world))
       = [Signed r]
       /\ req_json r = Some (PDict body)
       /\ dict_get body "username" = Some (PStr "enc(a@b.example)")
       /\ dict_get (req_headers r) "authorization" = None.
Proof.
  split; [reflexivity|].
  destruct (login_with_email_is_not_prefixed _ Demo.ext Demo.home
              "a@b.example" "secret" None Demo.world eq_refl)
    as (r & body & Hc & Hj & Hu & _ & Ha & _).
  exists r, body. repeat split; assumption.
Defined.

(** X15. When login succeeds, exactly one request was sent; the answer of
    the transport to that request had a result that is a mapping, the
    session is built from that mapping, and its registration id is the
    one that was sent, twice, in noticeSetting: the id the caller gave,
    or 19 random characters when the caller gave None or the empty
    str. *)
Theorem login_session_keeps_the_sent_register_id :
  forall (T : Types) (E : Ext T) (self : KarcherHome T)
         (username password : string) (rid : option string)
         (w w' : World) (sess : Session),
    login E self username password rid w = (inr sess, w') ->
    (forall x, rid = Some x -> x <> "" -> register_id sess = x)
    /\ (rid = None \/ rid = Some "" ->
        register_id sess = get_random_string E (ticks w) 19)
    /\ exists (r : Request) (body : dict) (resp : Response) (items : dict)
              (s0 : Session),
         calls w' = (calls w ++ [Signed r])%list
         /\ req_method r = "POST"
         /\ req_url r = _base_url self ++ "/user-center/auth/login"
         /\ req_json r = Some (PDict body)
         /\ dict_get body "noticeSetting"
            = Some (PDict [("andIpad", PStr (register_id sess));
                           ("android", PStr (register_id sess))])
         /\ session_request E (calls w) r = inr resp
         /\ _process_response E resp None = inr (PDict items)
         /\ new_Session E items = inr s0
         /\ sess = set_register_id s0 (register_id sess).
Proof.
  intros T E self username password rid w w' sess. rewrite login_run.
  set (used := used_register_id E rid w).
  set (w1 := login_world rid w).
  match goal with
  | |- context [after_request w1 ?r0] => set (r := r0)
  end.
  destruct (session_request E (calls w1) r) as [e|resp] eqn:Hresp;
    [discriminate|].
  cbn [and_then].
  destruct (_process_response E resp None) as [e|d] eqn:Hd; [discriminate|].
  cbn [and_then].
  destruct d as [| | | | |items]; try discriminate. cbn [kwargs_of].
  destruct (new_Session E items) as [e|s0] eqn:Hs0; [discriminate|].
  cbn [and_then]. intros H. injection H as <- <-.
  cbn [set_register_id register_id].
  split; [|split].
  - intros x -> Hx. subst used. unfold used_register_id.
    now destruct (String.eqb_spec x "").
  - intros [-> | ->]; reflexivity.
  - exists r, (login_fields E self username password used), resp, items, s0.
    cbn [after_request calls]. subst w1.
    rewrite login_world_calls in Hresp |- *.
    repeat split; assumption.
Qed.

Lemma X15_witness :
  let out := login Demo.ext Demo.home "12345" "secret" (Some "reg-1")
               Demo.world in
  let sess := {| auth_token := "tok"; user_id := "u1";
                 country_code := "DE"; register_id := "reg-1" |} in
  out = (inr sess, snd out)
  /\ register_id sess = "reg-1".
Proof.
  intros out sess.
  assert (H : out = (inr sess, snd out)) by (vm_compute; reflexivity).
  split; [exact H|].
  exact (proj1 (login_session_keeps_the_sent_register_id _ Demo.ext Demo.home
                  "12345" "secret" (Some "reg-1") Demo.world (snd out) sess H)
           "reg-1" eq_refl ltac:(discriminate)).
Defined.

(** X16. Logout of an authorized session makes one call, a signed POST of
    the empty mapping with the token and the user id as headers, signed
    over token, timestamp and nonce alone.  The session is emptied when
    the answer decodes without error, whatever its result is; when the
    transport or the decoding fails, logout fails with that error. *)
Theorem authorized_logout_resets_on_success :
  forall (T : Types) (E : Ext T) (self : KarcherHome T) (s : Session)
         (w : World),
    authorized (Some s) ->
    exists r : Request,
      logout E self (Some s) w
      = (resp <~ session_request E (calls w) r ;;
         _ <~ _process_response E resp None ;;
         inr empty_session,
         after_request w r)
      /\ req_method r = "POST"
      /\ req_url r = _base_url self ++ "/user-center/auth/logout"
      /\ req_json r = Some (PDict [])
      /\ dict_get (req_headers r) "sign"
         = Some (md5 E (auth_token s
                          ++ int_str (get_timestamp E (S (ticks w)))
                          ++ get_nonce E (ticks w)))
      /\ dict_get (req_headers r) "authorization" = Some (auth_token s)
      /\ dict_get (req_headers r) "id" = Some (user_id s).
Proof.
  intros T E self s w Hauth. unfold logout.
  rewrite (authorized_cases s Hauth).
  destruct (authorized_lookup s Hauth) as [Ha Hu].
  erewrite bind_request by reflexivity.
  match goal with |- context [after_request w ?r0] => exists r0 end.
  split.
  - destruct (session_request E (calls w) _) as [e|resp]; [reflexivity|].
    unfold bind, lift, ret, reset. cbn [and_then].
    destruct (_process_response E resp None); reflexivity.
  - split; [reflexivity|]. split; [reflexivity|]. split; [reflexivity|].
    match goal with
    | |- context [req_headers
                    (built_request E self ?ss ?m ?u ?kw ?n ?t ?d ?p)] =>
        destruct (built_request_lookup E self ss m u kw n t d p)
          as (Hsg & Hau & Hid)
    end.
    split; [|split].
    + rewrite Hsg. cbn [auth_of canonical_body]. now rewrite append_nil_r.
    + rewrite Hau. cbn [auth_of]. now rewrite Ha.
    + rewrite Hid. now rewrite Hu.
Qed.

Lemma X16_witness :
  authorized (Some Demo.session)
  /\ exists r : Request,
       logout Demo.ext Demo.home (Some Demo.session) Demo.world
       = (inr empty_session, after_request Demo.world r)
       /\ req_json r = Some (PDict [])
       /\ dict_get (req_headers r) "authorization" = Some "tok".
Proof.
  assert (H : authorized (Some Demo.session)).
  { exists Demo.session. repeat split; discriminate. }
  split; [exact H|].
  destruct (authorized_logout_resets_on_success _ Demo.ext Demo.home
              Demo.session Demo.world H)
    as (r & Hrun & _ & _ & Hj & _ & Ha & _).
  exists r. rewrite Hrun. repeat split; assumption.
Defined.

(** X17. After any logout that returns, the session is not authorized:
    the three listings then raise the access-denied exception without a
    call, and a second logout returns the same empty session without a
    call. *)
Theorem after_logout_nothing_is_sent :
  forall (T : Types) (E : Ext T) (self : KarcherHome T)
         (sess : option Session) (w w' : World) (s' : Session),
    logout E self sess w = (inr s', w') ->
    ~ authorized (Some s')
    /\ forall (familyID : string) (w2 : World),
         get_devices E self (Some s') w2
         = (inl (KarcherHomeAccessDenied "Not authorized"), w2)
         /\ get_families E self (Some s') w2
            = (inl (KarcherHomeAccessDenied "Not authorized"), w2)
         /\ get_consumables E self (Some s') familyID w2
            = (inl (KarcherHomeAccessDenied "Not authorized"), w2)
         /\ logout E self (Some s') w2 = (inr s', w2).
Proof.
  intros T E self sess w w' s' H.
  assert (Hs : s' = empty_session).
  { unfold logout in H. destruct sess as [s|]; [|discriminate].
    destruct (String.eqb (auth_token s) "" || String.eqb (user_id s) "")%bool.
    - now injection H as <- _.
    - unfold bind, lift, ret, reset in H.
      destruct (_request _ _ _ _ _ _ _) as [[e|resp] w1]; [discriminate|].
      destruct (_process_response E resp None); [discriminate|].
      now injection H as <- _. }
  subst s'. split.
  - intros (s & Hs & Ha & _). injection Hs as <-. now apply Ha.
  - intros familyID w2. repeat split.
Qed.

Lemma X17_witness :
  let out := logout Demo.ext Demo.home (Some Demo.session) Demo.world in
  out = (inr empty_session, snd out)
  /\ get_devices Demo.ext Demo.home (Some empty_session) (snd out)
     = (inl (KarcherHomeAccessDenied "Not authorized"), snd out).
Proof.
  intros out.
  assert (H : out = (inr empty_session, snd out)) by (vm_compute; reflexivity).
  split; [exact H|].
  exact (proj1 (proj2 (after_logout_nothing_is_sent _ Demo.ext Demo.home
                         (Some Demo.session) Demo.world (snd out)
                         empty_session H) "f" (snd out))).
Defined.

(** The request of a listing: a GET without arguments for an authorized
    session. *)
Lemma session_get_built {T : Types} (E : Ext T) (self : KarcherHome T)
    (s : Session) (path : string) (w : World) :
  authorized (Some s) ->
  session_get_request E self s path w
    (built_request E self (Some s) "GET" path no_kwargs
       (get_nonce E (ticks w)) (int_str (get_timestamp E (S (ticks w)))) ""
       {| kw_headers := None; kw_params := Some (PStr "");
          kw_json := None |}).
Proof.
  intros Hauth. destruct (authorized_lookup s Hauth) as [Ha Hu].
  unfold session_get_request.
  split; [reflexivity|]. split; [reflexivity|]. split; [reflexivity|].
  split; [reflexivity|].
  match goal with
  | |- context [req_headers
                  (built_request E self ?ss ?m ?u ?kw ?n ?t ?d ?p)] =>
      destruct (built_request_lookup E self ss m u kw n t d p)
        as (Hsg & Hau & Hid)
  end.
  split; [|split].
  - rewrite Hsg. cbn [auth_of]. now rewrite append_nil_r.
  - rewrite Hau. cbn [auth_of]. now rewrite Ha.
  - rewrite Hid. now rewrite Hu.
Qed.

(** X18. For an authorized session each listing makes exactly one call: a
    GET without query, signed over token, timestamp and nonce, with token
    and user id as headers.  The user id (for devices and families) and
    the family id (for consumables) are appended to the path as they are,
    without URL encoding.  Families and consumables return what the
    envelope decoder returns, None included; devices are built from it. *)
Theorem authorized_listings_are_one_signed_get :
  forall (T : Types) (E : Ext T) (self : KarcherHome T) (s : Session)
         (familyID : string) (w : World),
    authorized (Some s) ->
    (exists r : Request,
        get_devices E self (Some s) w
        = (resp <~ session_request E (calls w) r ;;
           v <~ _process_response E resp None ;;
           devices_of E v,
           after_request w r)
        /\ session_get_request E self s
             ("/smart-home-service/smartHome/user/getDeviceInfoByUserId/"
                ++ user_id s) w r)
    /\ (exists r : Request,
           get_families E self (Some s) w
           = (resp <~ session_request E (calls w) r ;;
              _process_response E resp None,
              after_request w r)
           /\ session_get_request E self s
                ("/smart-home-service/smartHome/familyInfo/list/"
                   ++ user_id s) w r)
    /\ (exists r : Request,
           get_consumables E self (Some s) familyID w
           = (resp <~ session_request E (calls w) r ;;
              _process_response E resp None,
              after_request w r)
           /\ session_get_request E self s
                ("/smart-home-service/smartHome/consumablesInfo/"
                   ++ "getConsumablesInfoByFamilyId/" ++ familyID) w r).
Proof.
  intros T E self s familyID w Hauth.
  unfold get_devices, get_families, get_consumables.
  rewrite (authorized_cases s Hauth).
  split; [|split];
    (erewrite bind_request by reflexivity;
     match goal with |- context [after_request w ?r0] => exists r0 end;
     split; [|apply (session_get_built E self s _ w Hauth)];
     destruct (session_request E (calls w) _) as [e|resp]; [reflexivity|];
     unfold bind, lift; cbn [and_then];
     try (destruct (_process_response E resp None); reflexivity);
     reflexivity).
Qed.

Lemma X18_witness :
  authorized (Some Demo.session)
  /\ exists r : Request,
       calls (snd (get_consumables Demo.ext Demo.home (Some Demo.session)
                     "f 1/x" Demo.world)) = [Signed r]
       /\ req_url r
          = "https://eu.example/smart-home-service/smartHome/"
            ++ "consumablesInfo/getConsumablesInfoByFamilyId/f 1/x".
Proof.
  assert (H : authorized (Some Demo.session)).
  { exists Demo.session. repeat split; discriminate. }
  split; [exact H|].
  destruct (proj2 (proj2 (authorized_listings_are_one_signed_get _ Demo.ext
                            Demo.home Demo.session "f 1/x" Demo.world H)))
    as (r & Hrun & _ & Hu & _).
  exists r. rewrite Hrun. split; [reflexivity | exact Hu].
Defined.

Lemma map_result_Forall2 {A B : Type} (f : A -> result B) (l : list A)
    (bs : list B) :
  map_result f l = inr bs -> Forall2 (fun a b => f a = inr b) l bs.
Proof.
  revert bs. induction l as [|a l IH]; intros bs; cbn.
  - intros [= <-]. constructor.
  - destruct (f a) as [e|b] eqn:Hb; [discriminate|]. cbn.
    destruct (map_result f l) as [e|bs']; [discriminate|]. cbn.
    intros [= <-]. constructor; auto.
Qed.

Lemma map_result_all_fail {A B : Type} (f : A -> result B) (l : list A)
    (bs : list B) :
  (forall a, exists e, f a = inl e) -> map_result f l = inr bs -> l = [].
Proof.
  intros Hf. destruct l as [|a l]; [reflexivity|]. cbn.
  destruct (Hf a) as [e ->]. discriminate.
Qed.

(** The envelope decoder gives no str when no field is named. *)
Lemma decoded_is_no_str {T : Types} (E : Ext T) (resp : Response)
    (s : string) :
  _process_response E resp None <> inr (PStr s).
Proof.
  unfold _process_response.
  destruct (negb (Z.eqb (status_code resp) 200)); [discriminate|].
  destruct (json resp) as [e|data]; [discriminate|]. cbn [and_then].
  destruct (getitem data "code") as [e|code]; [discriminate|]. cbn [and_then].
  match goal with
  | |- and_then ?c _ <> _ => destruct c as [e|[]]; [discriminate|]
  end.
  cbn [and_then].
  destruct (contains data "result") as [e|[|]]; [discriminate| |discriminate].
  cbn [and_then negb].
  destruct (getitem data "result") as [e|res]; [discriminate|].
  cbn [and_then]. destruct res; discriminate.
Qed.

(** X19. When get_devices returns, the session was authorized and exactly
    one request was sent, the signed GET of the device listing; the answer
    of the transport to that request was an envelope whose result is a
    list of mappings (or an empty mapping); the devices are built one per
    element of that list, from the fields of that element, in the order
    of the list. *)
Theorem devices_are_built_one_per_element :
  forall (T : Types) (E : Ext T) (self : KarcherHome T)
         (sess : option Session) (w w' : World) (ds : list Device),
    get_devices E self sess w = (inr ds, w') ->
    authorized sess
    /\ exists (s : Session) (r : Request) (resp : Response) (v : pyval),
         sess = Some s
         /\ session_get_request E self s
              ("/smart-home-service/smartHome/user/getDeviceInfoByUserId/"
                 ++ user_id s) w r
         /\ w' = after_request w r
         /\ session_request E (calls w) r = inr resp
         /\ _process_response E resp None = inr v
         /\ ((exists l : list pyval,
                 v = PList l
                 /\ Forall2 (fun d dev =>
                               exists items : dict,
                                 d = PDict items
                                 /\ new_Device E items = inr dev) l ds)
             \/ (v = PDict [] /\ ds = [])).
Proof.
  intros T E self sess w w' ds. unfold get_devices.
  destruct sess as [s|]; [|discriminate].
  destruct (String.eqb_spec (auth_token s) "") as [|Ha]; [discriminate|].
  destruct (String.eqb_spec (user_id s) "") as [|Hu]; [discriminate|].
  cbn [orb].
  assert (Hauth : authorized (Some s)) by (exists s; auto).
  erewrite bind_request by reflexivity.
  match goal with |- context [after_request w ?r0] => set (r := r0) end.
  destruct (session_request E (calls w) r) as [e|resp] eqn:Hresp;
    [discriminate|].
  unfold bind, lift.
  destruct (_process_response E resp None) as [e|v] eqn:Hv; [discriminate|].
  intros H. split; [exact Hauth|].
  exists s, r, resp, v. split; [reflexivity|].
  split; [apply (session_get_built E self s _ w Hauth)|].
  split; [congruence|]. split; [exact Hresp|]. split; [exact Hv|].
  assert (Hd : devices_of E v = inr ds) by congruence. clear H.
  destruct v as [| | |txt|l|d]; try discriminate.
  - now elim (decoded_is_no_str E resp txt).
  - left. exists l. split; [reflexivity|].
    apply map_result_Forall2 in Hd.
    refine (Forall2_impl _ _ Hd). intros a dev Hdev.
    destruct a; try discriminate. eauto.
  - right. cbn [devices_of] in Hd.
    assert (Hk : keys d = []).
    { apply (map_result_all_fail _ _ _ (fun k => ex_intro _ TypeError eq_refl)
               Hd). }
    destruct d; [|discriminate]. split; [reflexivity|].
    cbn in Hd. now injection Hd as <-.
Qed.

Lemma X19_witness :
  let envelope := PDict [("code", PInt 0);
                         ("result", PList [PDict [("sn", PStr "sn1")]])] in
  let out := get_devices (Demo.ext_with envelope) Demo.home
               (Some Demo.session) Demo.world in
  out = (inr [Demo.device], snd out)
  /\ authorized (Some Demo.session).
Proof.
  intros envelope out.
  assert (H : out = (inr [Demo.device], snd out)) by (vm_compute; reflexivity).
  split; [exact H|].
  exact (proj1 (devices_are_built_one_per_element _ (Demo.ext_with envelope)
                  Demo.home (Some Demo.session) Demo.world (snd out)
                  [Demo.device] H)).
Defined.

(* ===================================================================== *)
(** ** Map retrieval, stage by stage *)
(* ===================================================================== *)

(** [_download], whole. *)
Lemma download_run {T : Types} (E : Ext T) (url : pyval) (w : World) :
  _download E url w
  = (resp <~ session_get E (calls w) (str url) (download_headers E) ;;
     if Z.eqb (status_code resp) 200 then inr (content resp)
     else inl (KarcherHomeException (-1)
                 ("HTTP error: " ++ int_str (status_code resp))),
     after_download E w url).
Proof.
  unfold _download, bind, get, after_download, download_headers, raise, ret.
  cbn [calls ticks].
  destruct (session_get E _ _ _) as [e|resp]; [reflexivity|].
  cbn [and_then]. destruct (Z.eqb (status_code resp) 200); reflexivity.
Qed.

(** [get_map_data] once the access request has its answer. *)
Lemma map_data_after_access {T : Types} (E : Ext T) (self : KarcherHome T)
    (s : Session) (dev : Device) (map : Z) (w w1 : World) (resp : Response) :
  _request E self (Some s) "POST" access_path (access_kwargs E s dev map) w
  = (inr resp, w1) ->
  get_map_data E self (Some s) dev map w
  = match (d <~ _process_response E resp None ;; download_url d) with
    | inl e => (inl e, w1)
    | inr url =>
        (blob <~ fst (_download E url w1) ;;
         data <~ decrypt_map E (sn dev) (mac dev) (product_id dev) blob ;;
         decode_channel E map data,
         after_download E w1 url)
    end.
Proof.
  intros H1. rewrite get_map_data_stages. unfold map_blob.
  unfold bind at 1 2. rewrite H1. unfold bind, lift.
  destruct (_process_response E resp None) as [e|d]; [reflexivity|].
  cbn [and_then]. destruct (download_url d) as [e|url]; [reflexivity|].
  rewrite download_run. cbn [fst].
  destruct (session_get E _ _ _) as [e|resp2]; [reflexivity|].
  cbn [and_then].
  destruct (Z.eqb (status_code resp2) 200); [|reflexivity].
  cbn [and_then negb]. destruct (decrypt_map E _ _ _ _); reflexivity.
Qed.

(** X20. For every session object, get_map_data makes the signed access
    request and after it at most one more call, the download; the
    download carries the User-Agent header and nothing else, so neither
    the token, nor the user id, nor a signature goes to the storage host.
    A run that returns a map has made the download. *)
Theorem map_download_carries_no_credentials :
  forall (T : Types) (E : Ext T) (self : KarcherHome T) (s : Session)
         (dev : Device) (map : Z) (w : World),
    let out := get_map_data E self (Some s) dev map w in
    let plain := [("User-Agent", "Android_" ++ TENANT_ID E)] in
    exists r : Request,
      (calls (snd out) = (calls w ++ [Signed r])%list
       \/ exists url : string,
            calls (snd out)
            = (calls w ++ [Signed r; Download url plain])%list)
      /\ forall res, fst out = inr res ->
           exists url : string,
             calls (snd out)
             = (calls w ++ [Signed r; Download url plain])%list.
Proof.
  intros T E self s dev map w out plain. subst out.
  set (r := built_request E self (Some s) "POST" access_path
              (access_kwargs E s dev map) (get_nonce E (ticks w))
              (int_str (get_timestamp E (S (ticks w))))
              (canonical_body (access_fields E s dev map))
              (access_kwargs E s dev map)).
  assert (Hrun : _request E self (Some s) "POST" access_path
                   (access_kwargs E s dev map) w
                 = (session_request E (calls w) r, after_request w r)).
  { rewrite request_run. reflexivity. }
  exists r.
  destruct (session_request E (calls w) r) as [e|resp] eqn:Hresp.
  - assert (Hout : get_map_data E self (Some s) dev map w
                   = (inl e, after_request w r)).
    { rewrite get_map_data_stages. unfold map_blob.
      unfold bind at 1 2. now rewrite Hrun. }
    rewrite Hout. split; [left; reflexivity | discriminate].
  - rewrite (map_data_after_access E self s dev map w (after_request w r)
               resp Hrun).
    destruct (d <~ _process_response E resp None ;; download_url d)
      as [e|url].
    + split; [left; reflexivity | discriminate].
    + assert (Hc : calls (after_download E (after_request w r) url)
                   = (calls w ++ [Signed r; Download (str url) plain])%list).
      { cbn [after_download after_request calls]. now rewrite <- app_assoc. }
      cbn [snd fst]. split; [right|intros res _]; exists (str url); exact Hc.
Qed.

Example map_download_goes_to_the_cdn :
  exists r : Request,
    calls (snd (get_map_data Demo.ext Demo.home (Some Demo.session)
                  Demo.device 1 Demo.world))
    = [Signed r;
       Download "https://cdn.example/t/m/sn1/map_1"
         [("User-Agent", "Android_t")]]
    /\ dict_get (req_headers r) "authorization" = Some "tok".
Proof.
  eexists. split; vm_compute; reflexivity.
Qed.

(** X21. When the decoded access response is not a mapping (None, from an
    envelope without result, or a list) get_map_data raises TypeError;
    when it is a mapping without url it raises KeyError for url, also when
    a cdnDomain and a dir are there.  In both cases nothing is
    downloaded. *)
Theorem access_response_without_url_fails :
  forall (T : Types) (E : Ext T) (self : KarcherHome T) (s : Session)
         (dev : Device) (map : Z) (w w1 : World) (resp : Response)
         (d : pyval),
    _request E self (Some s) "POST" access_path (access_kwargs E s dev map) w
    = (inr resp, w1) ->
    _process_response E resp None = inr d ->
    ((forall items, d <> PDict items) ->
     get_map_data E self (Some s) dev map w = (inl TypeError, w1))
    /\ (forall items, d = PDict items -> dict_get items "url" = None ->
        get_map_data E self (Some s) dev map w = (inl (KeyError "url"), w1)).
Proof.
  intros T E self s dev map w w1 resp d H1 H2.
  rewrite (map_data_after_access E self s dev map w w1 resp H1), H2.
  cbn [and_then]. unfold download_url. split.
  - intros Hd. destruct d; try reflexivity. now elim (Hd items).
  - intros items -> Hu. cbn [getitem]. now rewrite Hu.
Qed.

Lemma X21_witness :
  let envelope := PDict [("code", PInt 0); ("msg", PStr "ok")] in
  let E := Demo.ext_with envelope in
  let run := _request E Demo.home (Some Demo.session) "POST" access_path
               (access_kwargs E Demo.session Demo.device 1) Demo.world in
  let resp := {| status_code := 200; json := inr envelope; content := "" |} in
  (run = (inr resp, snd run) /\ _process_response E resp None = inr PNone)
  /\ get_map_data E Demo.home (Some Demo.session) Demo.device 1 Demo.world
     = (inl TypeError, snd run).
Proof.
  intros envelope E run resp.
  assert (H1 : run = (inr resp, snd run)) by (vm_compute; reflexivity).
  assert (H2 : _process_response E resp None = inr PNone) by reflexivity.
  split; [split; assumption|].
  apply (proj1 (access_response_without_url_fails _ E Demo.home Demo.session
                  Demo.device 1 Demo.world (snd run) resp PNone H1 H2)).
  discriminate.
Defined.

(** X22. With a url in the access response, a cdnDomain that is there but
    is not a str (null, a number) makes get_map_data raise TypeError; a
    cdnDomain that is a non-empty str makes it raise KeyError for dir
    when there is no dir, and TypeError when the dir is not a str.
    Nothing is downloaded, and the url is not fallen back on. *)
Theorem bad_cdn_fields_fail :
  forall (T : Types) (E : Ext T) (self : KarcherHome T) (s : Session)
         (dev : Device) (map : Z) (w w1 : World) (resp : Response)
         (items : dict) (u cdn : pyval),
    _request E self (Some s) "POST" access_path (access_kwargs E s dev map) w
    = (inr resp, w1) ->
    _process_response E resp None = inr (PDict items) ->
    dict_get items "url" = Some u ->
    dict_get items "cdnDomain" = Some cdn ->
    ((forall c, cdn <> PStr c) ->
     get_map_data E self (Some s) dev map w = (inl TypeError, w1))
    /\ (forall c, cdn = PStr c -> c <> "" ->
        (dict_get items "dir" = None ->
         get_map_data E self (Some s) dev map w = (inl (KeyError "dir"), w1))
        /\ (forall dir, dict_get items "dir" = Some dir ->
            (forall x, dir <> PStr x) ->
            get_map_data E self (Some s) dev map w = (inl TypeError, w1))).
Proof.
  intros T E self s dev map w w1 resp items u cdn H1 H2 Hu Hc.
  rewrite (map_data_after_access E self s dev map w w1 resp H1), H2.
  cbn [and_then]. unfold download_url, getitem, contains, dict_mem.
  rewrite Hu, Hc. cbn [and_then]. split.
  - intros Hn. destruct cdn; try reflexivity. now elim (Hn s0).
  - intros c -> Hne. cbn [eq_str].
    destruct (String.eqb_spec c ""); [contradiction|].
    cbn [negb and_then str_add]. split.
    + now intros ->.
    + intros dir -> Hd. cbn [and_then].
      destruct dir; try reflexivity. now elim (Hd s0).
Qed.

Lemma X22_witness :
  let envelope :=
    PDict [("code", PInt 0);
           ("result", PDict [("url", PStr "https://store.example/b");
                             ("cdnDomain", PNone)])] in
  let E := Demo.ext_with envelope in
  let run := _request E Demo.home (Some Demo.session) "POST" access_path
               (access_kwargs E Demo.session Demo.device 1) Demo.world in
  let resp := {| status_code := 200; json := inr envelope; content := "" |} in
  let items := [("url", PStr "https://store.example/b");
                ("cdnDomain", PNone)] in
  (run = (inr resp, snd run)
   /\ _process_response E resp None = inr (PDict items))
  /\ get_map_data E Demo.home (Some Demo.session) Demo.device 1 Demo.world
     = (inl TypeError, snd run).
Proof.
  intros envelope E run resp items.
  assert (H1 : run = (inr resp, snd run)) by (vm_compute; reflexivity).
  assert (H2 : _process_response E resp None = inr (PDict items))
    by reflexivity.
  split; [split; assumption|].
  apply (proj1 (bad_cdn_fields_fail _ E Demo.home Demo.session Demo.device 1
                  Demo.world (snd run) resp items
                  (PStr "https://store.example/b") PNone H1 H2
                  eq_refl eq_refl)).
  discriminate.
Defined.

(** X23. Once the download URL is chosen, the outcome is that of the
    download: an error of the transport is raised as it is; a status other
    than 200 raises the HTTP error with that status; with status 200 the
    content of the response is what is decrypted, with the serial number,
    the MAC address and the product id of the device, and an error of the
    decryption is raised before any decoding. *)
Theorem map_blob_is_the_download_content :
  forall (T : Types) (E : Ext T) (self : KarcherHome T) (s : Session)
         (dev : Device) (map : Z) (w w1 : World) (resp : Response)
         (d url : pyval),
    _request E self (Some s) "POST" access_path (access_kwargs E s dev map) w
    = (inr resp, w1) ->
    _process_response E resp None = inr d ->
    download_url d = inr url ->
    let answer := session_get E (calls w1) (str url) (download_headers E) in
    let out := get_map_data E self (Some s) dev map w in
    snd out = after_download E w1 url
    /\ (forall e, answer = inl e -> fst out = inl e)
    /\ (forall got, answer = inr got -> status_code got <> 200%Z ->
        fst out = inl (KarcherHomeException (-1)
                         ("HTTP error: " ++ int_str (status_code got))))
    /\ (forall got, answer = inr got -> status_code got = 200%Z ->
        (forall e,
            decrypt_map E (sn dev) (mac dev) (product_id dev) (content got)
            = inl e -> fst out = inl e)
        /\ (forall data,
              decrypt_map E (sn dev) (mac dev) (product_id dev) (content got)
              = inr data ->
              fst out
              = (if Z.eqb map 1 || Z.eqb map 2
                 then m <~ Map_parse E data ;; inr (Parsed T m)
                 else v <~ json_loads E data ;; inr (Loaded T v)))).
Proof.
  intros T E self s dev map w w1 resp d url H1 H2 H3 answer out.
  subst out.
  rewrite (map_data_after_access E self s dev map w w1 resp H1), H2.
  cbn [and_then]. rewrite H3. cbn [fst snd]. rewrite download_run.
  cbn [fst]. fold answer. split; [reflexivity|]. split; [|split].
  - now intros e ->.
  - intros got -> Hst. apply Z.eqb_neq in Hst. cbn [and_then].
    now rewrite Hst.
  - intros got -> Hst. cbn [and_then]. rewrite Hst.
    cbn [Z.eqb Pos.eqb and_then].
    split.
    + now intros e ->.
    + intros data ->. reflexivity.
Qed.

Lemma X23_witness :
  let run := _request Demo.ext Demo.home (Some Demo.session) "POST"
               access_path (access_kwargs Demo.ext Demo.session Demo.device 3)
               Demo.world in
  let resp := {| status_code := 200; json := inr Demo.access_envelope;
                 content := "" |} in
  let d := PDict [("url", PStr "https://store.example/blob?sig=1");
                  ("cdnDomain", PStr "cdn.example");
                  ("dir", PStr "t/m/sn1/map_1")] in
  (run = (inr resp, snd run)
   /\ _process_response Demo.ext resp None = inr d
   /\ download_url d = inr (PStr "https://cdn.example/t/m/sn1/map_1"))
  /\ fst (get_map_data Demo.ext Demo.home (Some Demo.session) Demo.device 3
            Demo.world)
     = inr (Loaded Demo.types (PDict [("text", PStr "plain:blob")])).
Proof.
  intros run resp d.
  assert (H1 : run = (inr resp, snd run)) by (vm_compute; reflexivity).
  assert (H2 : _process_response Demo.ext resp None = inr d) by reflexivity.
  assert (H3 : download_url d
               = inr (PStr "https://cdn.example/t/m/sn1/map_1"))
    by reflexivity.
  split; [repeat split; assumption|].
  destruct (map_blob_is_the_download_content _ Demo.ext Demo.home
              Demo.session Demo.device 3 Demo.world (snd run) resp d
              (PStr "https://cdn.example/t/m/sn1/map_1") H1 H2 H3)
    as (_ & _ & _ & Hok).
  exact (proj2 (Hok {| status_code := 200;
                       json := inl (Foreign "JSONDecodeError");
                       content := "blob" |} eq_refl eq_refl)
           "plain:blob" eq_refl).
Defined.

Lemma int_str_inj (a b : Z) : int_str a = int_str b -> a = b.
Proof.
  unfold int_str. intros H.
  assert (Hn : forall n, NilZero.int_of_string
                           (NilZero.string_of_int (Z.to_int n))
                         = Some (Z.to_int n)).
  { intros n. apply NilZero.isi; destruct n; cbn; try discriminate;
      intros [= Hp]; now apply (DecimalPos.Unsigned.to_uint_nonnil p). }
  apply DecimalZ.to_int_inj.
  pose proof (Hn a) as Ha. rewrite H, Hn in Ha. now injection Ha.
Qed.

(** X24. The access request names the storage directory of the channel:
    tenant, product mode code, serial number, the fixed date and prefix,
    the serial number again and the channel index in decimal.  For one
    device, two channel indices ask for the same directory only when they
    are equal. *)
Theorem storage_directory_tells_the_channel :
  forall (T : Types) (E : Ext T) (self : KarcherHome T) (s : Session)
         (dev : Device) (w : World) (m1 m2 : Z) (r1 r2 : Request)
         (rest1 rest2 : list NetCall),
    calls (snd (get_map_data E self (Some s) dev m1 w))
    = (calls w ++ Signed r1 :: rest1)%list ->
    calls (snd (get_map_data E self (Some s) dev m2 w))
    = (calls w ++ Signed r2 :: rest2)%list ->
    (exists body1 : dict,
        req_json r1 = Some (PDict body1)
        /\ dict_get body1 "dir"
           = Some (PStr (TENANT_ID E ++ "/" ++ product_mode_code dev ++ "/"
                           ++ sn dev ++ "/01-01-2022/map/temp/0046690461_"
                           ++ sn dev ++ "_" ++ int_str m1)))
    /\ (req_json r1 = req_json r2 -> m1 = m2).
Proof.
  intros T E self s dev w m1 m2 r1 r2 rest1 rest2 Hc1 Hc2.
  assert (Hfirst : forall m r rest,
             calls (snd (get_map_data E self (Some s) dev m w))
             = (calls w ++ Signed r :: rest)%list ->
             req_json r = Some (PDict (access_fields E s dev m))).
  { intros m r rest Hc.
    rewrite get_map_data_stages in Hc.
    rewrite bind_quiet_tail in Hc by (intros; apply quiet_lift).
    unfold map_blob in Hc. unfold bind at 1 in Hc.
    rewrite request_run in Hc.
    cbn [canonical access_kwargs String.eqb Ascii.eqb Bool.eqb orb kw_json
         truthy access_fields] in Hc.
    cbv zeta in Hc.
    match type of Hc with
    | context [after_request w ?r0] => set (r0' := r0) in Hc
    end.
    assert (Hr : exists rest', (calls w ++ Signed r0' :: rest')%list
                               = (calls w ++ Signed r :: rest)%list).
    { destruct (session_request E (calls w) r0') as [e|resp].
      - exists []. rewrite <- Hc. reflexivity.
      - destruct (grows_map_tail E dev resp (after_request w r0'))
          as [rest' Hrest].
        exists rest'. rewrite <- Hc, Hrest. cbn [after_request calls].
        now rewrite <- app_assoc. }
    destruct Hr as [rest' Hr]. apply app_inv_head in Hr.
    injection Hr as <- _. reflexivity. }
  split.
  - exists (access_fields E s dev m1). split; [now apply (Hfirst m1 r1 rest1)|].
    reflexivity.
  - intros Heq.
    rewrite (Hfirst m1 r1 rest1 Hc1), (Hfirst m2 r2 rest2 Hc2) in Heq.
    unfold access_fields in Heq. injection Heq as Heq.
    repeat first [ apply append_inj_l in Heq
                 | progress (cbn [append] in Heq; injection Heq as Heq) ].
    now apply int_str_inj.
Qed.

Lemma X24_witness :
  exists (r : Request) (rest : list NetCall),
    calls (snd (get_map_data Demo.ext Demo.home (Some Demo.session)
                  Demo.device 2 Demo.world))
    = ([] ++ Signed r :: rest)%list
    /\ exists body : dict,
         req_json r = Some (PDict body)
         /\ dict_get body "dir"
            = Some (PStr "t/m/sn1/01-01-2022/map/temp/0046690461_sn1_2").
Proof.
  assert (H : exists r rest,
             calls (snd (get_map_data Demo.ext Demo.home (Some Demo.session)
                           Demo.device 2 Demo.world))
             = ([] ++ Signed r :: rest)%list)
    by (do 2 eexists; vm_compute; reflexivity).
  destruct H as (r & rest & H). exists r, rest. split; [exact H|].
  exact (proj1 (storage_directory_tells_the_channel _ Demo.ext Demo.home
                  Demo.session Demo.device Demo.world 2 2 r r rest rest H H)).
Defined.
